(** * Repository hook events of the CDS sdk: a shallow embedding

    This development embeds [sdk/hooks_repository_event.go] in Rocq and
    proves properties of its functions:

    - [IsValidForEventName]: which (event name, event type) pairs are valid;
    - [IsTerminated] on events and on workflow dispatches;
    - [ToInsightReport]: the bounded status report of an event;
    - [GenerateRepositoryWebHookSecret] and [GenerateWorkflowWebHookSecret]:
      the derivation of webhook secrets.

    Go strings are byte sequences: they are modelled by [string], whose
    characters ([ascii]) are bytes.  Go's [int] and [int64] are modelled by
    [Z] (no arithmetic of the file can overflow: the only arithmetic is on
    slice lengths). *)

From Stdlib Require Import ZArith List String Ascii Bool Lia.
Import ListNotations.

Local Open Scope string_scope.
Local Open Scope Z_scope.

(** ** Event names, event types and statuses *)

Definition WorkflowHookEventName := string.
Definition WorkflowHookEventType := string.


Definition WorkflowHookEventNamePullRequest : WorkflowHookEventName := "pull-request".
Definition WorkflowHookEventTypePullRequestOpened : WorkflowHookEventType := "opened".
Definition WorkflowHookEventTypePullRequestReopened : WorkflowHookEventType := "reopened".
Definition WorkflowHookEventTypePullRequestClosed : WorkflowHookEventType := "closed".
Definition WorkflowHookEventTypePullRequestEdited : WorkflowHookEventType := "edited".

Definition WorkflowHookEventNamePullRequestComment : WorkflowHookEventName := "pull-request-comment".
Definition WorkflowHookEventTypePullRequestCommentCreated : WorkflowHookEventType := "created".
Definition WorkflowHookEventTypePullRequestCommentDeleted : WorkflowHookEventType := "deleted".
Definition WorkflowHookEventTypePullRequestCommentEdited : WorkflowHookEventType := "edited".

Definition HookEventStatusScheduled := "Scheduled".
Definition HookEventStatusAnalysis := "Analyzing".
Definition HookEventStatusCheckAnalysis := "CheckAnalyzing".
Definition HookEventStatusWorkflowHooks := "WorkflowHooks".
Definition HookEventStatusSignKey := "SignKey".
Definition HookEventStatusGitInfo := "GitInfo".
Definition HookEventStatusWorkflow := "Workflow".
Definition HookEventStatusDone := "Done".
Definition HookEventStatusError := "Error".
Definition HookEventStatusSkipped := "Skipped".

Definition HookEventWorkflowStatusScheduled := "Scheduled".
Definition HookEventWorkflowStatusSkipped := "Skipped".
Definition HookEventWorkflowStatusError := "Error".
Definition HookEventWorkflowStatusDone := "Done".

(** [switch n { case PullRequest: switch t {...}; case PullRequestComment:
    switch t {...}; default: return t == "" }; return false].  An inner
    switch without a matching case leaves the outer one, and the function
    ends in [return false]. *)
Definition IsValidForEventName (t : WorkflowHookEventType) (n : WorkflowHookEventName) : bool :=
  if (n =? WorkflowHookEventNamePullRequest)%string then
    if (t =? WorkflowHookEventTypePullRequestOpened)%string
       || (t =? WorkflowHookEventTypePullRequestReopened)%string
       || (t =? WorkflowHookEventTypePullRequestClosed)%string
       || (t =? WorkflowHookEventTypePullRequestEdited)%string
    then true
    else false
  else if (n =? WorkflowHookEventNamePullRequestComment)%string then
    if (t =? WorkflowHookEventTypePullRequestCommentCreated)%string
       || (t =? WorkflowHookEventTypePullRequestCommentDeleted)%string
       || (t =? WorkflowHookEventTypePullRequestCommentEdited)%string
    then true
    else false
  else (t =? "")%string.

(** ** The Go library functions the file calls

    [strconv.Itoa], [fmt.Sprintf] with the verbs [%s], [%d] and [%q],
    [url.PathEscape], and below [pbkdf2.Key], [sha512.New] and
    [base64.StdEncoding.EncodeToString] belong to Go's libraries.  They
    are modelled here after the libraries' code, on bytes. *)

Definition byte_of (c : ascii) : Z := Z.of_N (N_of_ascii c).
Definition char_of (b : Z) : ascii := ascii_of_N (Z.to_N b).

Definition bytes_of_string (s : string) : list Z := map byte_of (list_ascii_of_string s).
Definition string_of_bytes (l : list Z) : string := string_of_list_ascii (map char_of l).

Definition len (s : string) : Z := Z.of_nat (String.length s).

(** *** Decimal numbers: [strconv.Itoa], [strconv.FormatInt(_, 10)], [%d] *)

Module strconv.

Definition digit (d : Z) : ascii := char_of (48 + d).

(** The digit loop of [formatBits] in base 10: the digits of [u] are
    written from the least significant one, in front of [acc].  [fuel]
    bounds the number of digits. *)
Fixpoint formatBits (fuel : nat) (u : Z) (acc : string) : string :=
  match fuel with
  | O => acc
  | S fuel' =>
      let acc' := String (digit (u mod 10)) acc in
      if u <? 10 then acc' else formatBits fuel' (u / 10) acc'
  end.

Definition formatUint (u : Z) : string :=
  formatBits (S (Z.to_nat (Z.log2 u))) u "".

Definition FormatInt (i : Z) : string :=
  if i <? 0 then String "-" (formatUint (- i)) else formatUint i.

Definition Itoa (i : Z) : string := FormatInt i.

Definition lowerhex (d : Z) : ascii :=
  if d <? 10 then char_of (48 + d) else char_of (87 + d).

End strconv.

(** *** UTF-8: [utf8.DecodeRuneInString], [utf8.AppendRune], [utf8.ValidRune] *)

Module utf8.

Definition RuneError : Z := 65533.
Definition RuneSelf : Z := 128.
Definition MaxRune : Z := 1114111.

(** The table [first]: information about the first byte of an encoding.
    [240] ([as]) is ASCII, [241] ([xx]) is invalid; otherwise the low three
    bits are the size and the high four the index into [acceptRanges]. *)
Definition first (b : Z) : Z :=
  if b <? 128 then 240
  else if b <? 194 then 241
  else if b <? 224 then 2
  else if b =? 224 then 19
  else if b <? 237 then 3
  else if b =? 237 then 35
  else if b <? 240 then 3
  else if b =? 240 then 52
  else if b <? 244 then 4
  else if b =? 244 then 68
  else 241.

(** [acceptRanges]: the bounds of the second byte. *)
Definition acceptRanges (i : Z) : Z * Z :=
  if i =? 0 then (128, 191)
  else if i =? 1 then (160, 191)
  else if i =? 2 then (128, 159)
  else if i =? 3 then (144, 191)
  else if i =? 4 then (128, 143)
  else (0, 0).

Definition locb : Z := 128.
Definition hicb : Z := 191.

(** [DecodeRuneInString s]: the first rune of [s] and its width in bytes. *)
Definition DecodeRuneInString (s : list Z) : Z * Z :=
  match s with
  | [] => (RuneError, 0)
  | s0 :: t0 =>
      let x := first s0 in
      if 240 <=? x then
        if x =? 240 then (s0, 1) else (RuneError, 1)
      else
        let sz := Z.land x 7 in
        let '(lo, hi) := acceptRanges (Z.shiftr x 4) in
        if Z.of_nat (List.length s) <? sz then (RuneError, 1)
        else
          match t0 with
          | [] => (RuneError, 1)
          | s1 :: t1 =>
              if (s1 <? lo) || (hi <? s1) then (RuneError, 1)
              else if sz <=? 2 then
                (Z.lor (Z.shiftl (Z.land s0 31) 6) (Z.land s1 63), 2)
              else
                match t1 with
                | [] => (RuneError, 1)
                | s2 :: t2 =>
                    if (s2 <? locb) || (hicb <? s2) then (RuneError, 1)
                    else if sz <=? 3 then
                      (Z.lor (Z.lor (Z.shiftl (Z.land s0 15) 12)
                                    (Z.shiftl (Z.land s1 63) 6))
                             (Z.land s2 63), 3)
                    else
                      match t2 with
                      | [] => (RuneError, 1)
                      | s3 :: _ =>
                          if (s3 <? locb) || (hicb <? s3) then (RuneError, 1)
                          else
                            (Z.lor (Z.lor (Z.lor (Z.shiftl (Z.land s0 7) 18)
                                                 (Z.shiftl (Z.land s1 63) 12))
                                          (Z.shiftl (Z.land s2 63) 6))
                                   (Z.land s3 63), 4)
                      end
                end
          end
  end.

Definition ValidRune (r : Z) : bool :=
  ((0 <=? r) && (r <? 55296)) || ((57343 <? r) && (r <=? MaxRune)).

(** [AppendRune]: the UTF-8 encoding of [r]; runes out of range and
    surrogates are encoded as [RuneError]. *)
Definition encode3 (r : Z) : list Z :=
  [Z.lor 224 (Z.shiftr r 12);
   Z.lor 128 (Z.land (Z.shiftr r 6) 63);
   Z.lor 128 (Z.land r 63)].

Definition EncodeRune (r : Z) : list Z :=
  if (0 <=? r) && (r <=? 127) then [r]
  else if (0 <=? r) && (r <=? 2047) then
    [Z.lor 192 (Z.shiftr r 6); Z.lor 128 (Z.land r 63)]
  else if (r <? 0) || (MaxRune <? r) || ((55296 <=? r) && (r <=? 57343)) then
    encode3 RuneError
  else if r <=? 65535 then encode3 r
  else
    [Z.lor 240 (Z.shiftr r 18);
     Z.lor 128 (Z.land (Z.shiftr r 12) 63);
     Z.lor 128 (Z.land (Z.shiftr r 6) 63);
     Z.lor 128 (Z.land r 63)].

End utf8.

(** *** URL escaping: [url.PathEscape] *)

Module url.

Definition upperhex (d : Z) : Z := if d <? 10 then 48 + d else 55 + d.

Definition alphanum (c : Z) : bool :=
  ((97 <=? c) && (c <=? 122)) || ((65 <=? c) && (c <=? 90)) || ((48 <=? c) && (c <=? 57)).

Definition is_one_of (c : Z) (s : string) : bool :=
  existsb (Z.eqb c) (bytes_of_string s).

(** [shouldEscape(c, encodePathSegment)]: letters, digits and the marks
    [-_.~] are kept; of the reserved characters [$&+,/:;=?@], a path
    segment escapes [/ ; , ?]; every other byte is escaped. *)
Definition shouldEscape (c : Z) : bool :=
  if alphanum c then false
  else if is_one_of c "-_.~" then false
  else if is_one_of c "$&+,/:;=?@" then is_one_of c "/;,?"
  else true.

(** [escape(s, encodePathSegment)]: an escaped byte becomes [%XX], with
    upper-case hexadecimal digits. *)
Definition escape_byte (c : Z) : list Z :=
  if shouldEscape c
  then [37; upperhex (Z.shiftr c 4); upperhex (Z.land c 15)]
  else [c].

Definition PathEscape (s : string) : string :=
  string_of_bytes (flat_map escape_byte (bytes_of_string s)).

End url.

(** ** The structures *)

(** [VCSInsight] and [VCSInsightData] are declared in another file of the
    package; their fields are the ones [ToInsightReport] sets. *)
Module VCSInsightData.
Record t : Type := mk
  { Title : string;
    Type_ : string;
    Text : string;
    Href : string }.
End VCSInsightData.

Module VCSInsight.
Record t : Type := mk
  { Title : string;
    Detail : string;
    Datas : list VCSInsightData.t }.
End VCSInsight.

Module HookRepositoryEventAnalysis.
Record t : Type := mk
  { AnalyzeID : string;
    Status : string;
    ProjectKey : string;
    Error : string;
    FindRetryCount : Z }.
End HookRepositoryEventAnalysis.

(** Of the fields of [HookRepositoryEventWorkflow] and of
    [HookRepositoryEvent], the records keep the identity, status, error and
    run fields; the functions below read no other field. *)
Module HookRepositoryEventWorkflow.
Record t : Type := mk
  { ProjectKey : string;
    VCSIdentifier : string;
    RepositoryIdentifier : string;
    WorkflowName : string;
    Ref : string;
    Commit : string;
    Status : string;
    Error : string;
    RunID : string;
    RunNumber : Z }.

Definition IsTerminated (wh : t) : bool :=
  (Status wh =? HookEventWorkflowStatusError)%string
  || (Status wh =? HookEventWorkflowStatusSkipped)%string
  || (Status wh =? HookEventWorkflowStatusDone)%string.
End HookRepositoryEventWorkflow.

Module HookRepositoryEvent.
Record t : Type := mk
  { UUID : string;
    EventName : WorkflowHookEventName;
    EventType : WorkflowHookEventType;
    VCSServerName : string;
    RepositoryName : string;
    Status : string;
    LastError : string;
    NbErrors : Z;
    Analyses : list HookRepositoryEventAnalysis.t;
    WorkflowHooks : list HookRepositoryEventWorkflow.t }.

Definition IsTerminated (h : t) : bool :=
  (Status h =? HookEventStatusDone)%string
  || (Status h =? HookEventStatusError)%string
  || (Status h =? HookEventStatusSkipped)%string.

Definition GetFullName (h : t) : string :=
  VCSServerName h ++ "/" ++ RepositoryName h ++ "/" ++ UUID h.
End HookRepositoryEvent.

(** ** The report *)

Definition LF : string := String (char_of 10) "".

(** A run-time panic (an index out of range) is [None]. *)
Definition bind {A B : Type} (x : option A) (f : A -> option B) : option B :=
  match x with
  | Some a => f a
  | None => None
  end.

Notation "x <- e ;; k" := (bind e (fun x => k))
  (at level 61, e at next level, right associativity).

(** [s[i]] on a slice. *)
Definition index {A : Type} (s : list A) (i : nat) : option A := nth_error s i.

Section Report.

(** [strconv.IsPrint] decides runes above [0xFF] by binary search in the
    tables [isPrint16], [isNotPrint16], [isPrint32] and [isNotPrint32]
    of Go's library, taken here as a parameter. *)
Variable isPrintWide : Z -> bool.

(** The constant [V2WorkflowRunStatusSuccess] is declared in another file
    of the package. *)
Variable V2WorkflowRunStatusSuccess : string.

Definition strconv_IsPrint (r : Z) : bool :=
  if r <=? 255 then
    if (32 <=? r) && (r <=? 126) then true
    else if (161 <=? r) && (r <=? 255) then negb (r =? 173)
    else false
  else isPrintWide r.

Definition hex_at (r : Z) (s : Z) : Z :=
  byte_of (strconv.lowerhex (Z.land (Z.shiftr r s) 15)).

(** [appendEscapedRune(buf, r, quote, false, false)] *)
Definition strconv_appendEscapedRune (buf : list Z) (r : Z) (quote : Z) : list Z :=
  if (r =? quote) || (r =? 92) then (buf ++ [92; r mod 256])%list
  else if strconv_IsPrint r then (buf ++ utf8.EncodeRune r)%list
  else if r =? 7 then (buf ++ [92; 97])%list
  else if r =? 8 then (buf ++ [92; 98])%list
  else if r =? 12 then (buf ++ [92; 102])%list
  else if r =? 10 then (buf ++ [92; 110])%list
  else if r =? 13 then (buf ++ [92; 114])%list
  else if r =? 9 then (buf ++ [92; 116])%list
  else if r =? 11 then (buf ++ [92; 118])%list
  else if (r <? 32) || (r =? 127) then
    (buf ++ [92; 120; hex_at (r mod 256) 4; hex_at (r mod 256) 0])%list
  else
    let r' := if negb (utf8.ValidRune r) then 65533 else r in
    if negb (utf8.ValidRune r) || (r <? 65536) then
      (buf ++ [92; 117] ++ map (hex_at r') [12; 8; 4; 0])%list
    else
      (buf ++ [92; 85] ++ map (hex_at r') [28; 24; 20; 16; 12; 8; 4; 0])%list.

(** The loop of [appendQuotedWith]: [for width := 0; len(s) > 0;
    s = s[width:]].  The width is at least 1, so [length s] steps are
    enough. *)
Fixpoint strconv_quoteLoop (fuel : nat) (s : list Z) (quote : Z) (buf : list Z) : list Z :=
  match fuel with
  | O => buf
  | S fuel' =>
      match s with
      | [] => buf
      | s0 :: _ =>
          let '(r, width) :=
            if utf8.RuneSelf <=? s0 then utf8.DecodeRuneInString s else (s0, 1) in
          let buf' :=
            if (width =? 1) && (r =? utf8.RuneError)
            then (buf ++ [92; 120; hex_at s0 4; hex_at s0 0])%list
            else strconv_appendEscapedRune buf r quote in
          strconv_quoteLoop fuel' (skipn (Z.to_nat width) s) quote buf'
      end
  end.

(** [strconv.Quote(s)], which is what [%q] prints for a string. *)
Definition strconv_Quote (s : string) : string :=
  let b := bytes_of_string s in
  string_of_bytes (strconv_quoteLoop (List.length b) b 34 [34] ++ [34])%list.

(** [fmt.Sprintf("%s/project/%s/explore/vcs/%s/repository/%s/settings",
    uiURL, projectKey, h.VCSServerName, url.PathEscape(h.RepositoryName))] *)
Definition settingsHref (h : HookRepositoryEvent.t) (uiURL projectKey : string) : string :=
  uiURL ++ "/project/" ++ projectKey ++ "/explore/vcs/"
        ++ HookRepositoryEvent.VCSServerName h ++ "/repository/"
        ++ url.PathEscape (HookRepositoryEvent.RepositoryName h) ++ "/settings".

Definition analysisData (h : HookRepositoryEvent.t) (uiURL : string)
    (a : HookRepositoryEventAnalysis.t) : VCSInsightData.t :=
  {| VCSInsightData.Title := "Analysis on " ++ HookRepositoryEventAnalysis.ProjectKey a;
     VCSInsightData.Type_ := "LINK";
     VCSInsightData.Text := HookRepositoryEventAnalysis.Status a;
     VCSInsightData.Href := settingsHref h uiURL (HookRepositoryEventAnalysis.ProjectKey a) |}.

Definition workflowData (h : HookRepositoryEvent.t) (uiURL : string)
    (w : HookRepositoryEventWorkflow.t) : VCSInsightData.t :=
  let da :=
    {| VCSInsightData.Title :=
         HookRepositoryEventWorkflow.WorkflowName w ++ " #"
           ++ strconv.FormatInt (HookRepositoryEventWorkflow.RunNumber w);
       VCSInsightData.Type_ := "LINK";
       VCSInsightData.Text := HookRepositoryEventWorkflow.Status w;
       VCSInsightData.Href := "" |} in
  if (HookRepositoryEventWorkflow.Status w =? V2WorkflowRunStatusSuccess)%string then
    {| VCSInsightData.Title := VCSInsightData.Title da;
       VCSInsightData.Type_ := VCSInsightData.Type_ da;
       VCSInsightData.Text := VCSInsightData.Text da;
       VCSInsightData.Href :=
         uiURL ++ "/project/" ++ HookRepositoryEventWorkflow.ProjectKey w
               ++ "/run/" ++ HookRepositoryEventWorkflow.RunID w |}
  else
    {| VCSInsightData.Title := VCSInsightData.Title da;
       VCSInsightData.Type_ := VCSInsightData.Type_ da;
       VCSInsightData.Text := VCSInsightData.Text da;
       VCSInsightData.Href :=
         settingsHref h uiURL (HookRepositoryEventWorkflow.ProjectKey w) |}.

Definition setDetail (report : VCSInsight.t) (d : string) : VCSInsight.t :=
  {| VCSInsight.Title := VCSInsight.Title report;
     VCSInsight.Detail := d;
     VCSInsight.Datas := VCSInsight.Datas report |}.

(** [report.Datas = append(report.Datas, da)] *)
Definition appendData (report : VCSInsight.t) (da : VCSInsightData.t) : VCSInsight.t :=
  {| VCSInsight.Title := VCSInsight.Title report;
     VCSInsight.Detail := VCSInsight.Detail report;
     VCSInsight.Datas := (VCSInsight.Datas report ++ [da])%list |}.

(** Lines 165-178: the title and the detail. *)
Definition reportDetail (h : HookRepositoryEvent.t) : VCSInsight.t :=
  let report :=
    {| VCSInsight.Title := "CDS";
       VCSInsight.Detail :=
         "Event " ++ strconv_Quote (HookRepositoryEvent.EventName h)
           ++ " (" ++ HookRepositoryEvent.UUID h ++ "): " ++ HookRepositoryEvent.Status h;
       VCSInsight.Datas := [] |} in
  if negb (HookRepositoryEvent.Status h =? HookEventStatusDone)%string then
    setDetail report (VCSInsight.Detail report ++ LF ++ LF ++ HookRepositoryEvent.LastError h)
  else
    fold_left
      (fun report a =>
         if negb (HookRepositoryEventAnalysis.Error a =? "")%string then
           setDetail report
             (VCSInsight.Detail report ++ LF ++ LF ++ "On project "
                ++ HookRepositoryEventAnalysis.ProjectKey a ++ ": "
                ++ HookRepositoryEventAnalysis.Error a)
         else report)
      (HookRepositoryEvent.Analyses h) report.

(** Lines 180-207: the analysis items. *)
Definition reportAnalyses (h : HookRepositoryEvent.t) (uiURL : string)
    (report : VCSInsight.t) : option VCSInsight.t :=
  let n := Z.of_nat (List.length (HookRepositoryEvent.Analyses h)) in
  if n <? 6 then
    Some (fold_left (fun report a => appendData report (analysisData h uiURL a))
                    (HookRepositoryEvent.Analyses h) report)
  else if 0 <? n then
    a <- index (HookRepositoryEvent.Analyses h) 0 ;;
    Some (appendData report (analysisData h uiURL a))
  else
    Some (appendData report
            {| VCSInsightData.Title := "Nb of Analysis triggered";
               VCSInsightData.Type_ := "TEXT";
               VCSInsightData.Text := strconv.Itoa 0;
               VCSInsightData.Href := "" |}).

(** Lines 209-237: the workflow items. *)
Definition reportWorkflows (h : HookRepositoryEvent.t) (uiURL : string)
    (report : VCSInsight.t) : option VCSInsight.t :=
  let n := Z.of_nat (List.length (HookRepositoryEvent.WorkflowHooks h)) in
  if n + Z.of_nat (List.length (VCSInsight.Datas report)) <? 7 then
    Some (fold_left (fun report w => appendData report (workflowData h uiURL w))
                    (HookRepositoryEvent.WorkflowHooks h) report)
  else
    let repoFilter :=
      HookRepositoryEvent.VCSServerName h ++ "/" ++ HookRepositoryEvent.RepositoryName h in
    w <- index (HookRepositoryEvent.WorkflowHooks h) 0 ;;
    let da :=
      {| VCSInsightData.Title := "Nb of workflows triggered";
         VCSInsightData.Type_ := "LINK";
         VCSInsightData.Text := strconv.Itoa n;
         VCSInsightData.Href :=
           uiURL ++ "/project/" ++ HookRepositoryEventWorkflow.ProjectKey w
                 ++ "/run?workflow_ref=" ++ url.PathEscape (HookRepositoryEventWorkflow.Ref w)
                 ++ "&repository=" ++ url.PathEscape repoFilter |} in
    Some (appendData report da).

Definition ToInsightReport (h : HookRepositoryEvent.t) (uiURL : string) : option VCSInsight.t :=
  report <- reportAnalyses h uiURL (reportDetail h) ;;
  reportWorkflows h uiURL report.

End Report.

(** ** Secret derivation

    Bytes are numbers below 256, 64-bit words numbers below [2^64] with the
    wrap-around written out. *)

(** *** [hash.Hash]

    A hash of Go's library is an object that bytes are written to; [Sum]
    returns the digest of all bytes written since the last [Reset].  The
    model keeps the bytes written, and a hash is its digest function with
    its two sizes. *)
Module hash.
Record Hash : Type := mk
  { Size : Z;
    BlockSize : Z;
    digest : list Z -> list Z }.
End hash.

(** *** [crypto/sha512] *)

Module sha512.

Definition chunk : Z := 128.

Definition add64 (x y : Z) : Z := (x + y) mod 2 ^ 64.

(** [bits.RotateLeft64(x, -n)] *)
Definition rotr (x n : Z) : Z :=
  Z.lor (Z.shiftr x n) (Z.shiftl x (64 - n) mod 2 ^ 64).

(** [^x] on 64 bits *)
Definition not64 (x : Z) : Z := 2 ^ 64 - 1 - x.

Definition _K : list Z :=
  [
   0x428a2f98d728ae22; 0x7137449123ef65cd; 0xb5c0fbcfec4d3b2f;
   0xe9b5dba58189dbbc; 0x3956c25bf348b538; 0x59f111f1b605d019;
   0x923f82a4af194f9b; 0xab1c5ed5da6d8118; 0xd807aa98a3030242;
   0x12835b0145706fbe; 0x243185be4ee4b28c; 0x550c7dc3d5ffb4e2;
   0x72be5d74f27b896f; 0x80deb1fe3b1696b1; 0x9bdc06a725c71235;
   0xc19bf174cf692694; 0xe49b69c19ef14ad2; 0xefbe4786384f25e3;
   0x0fc19dc68b8cd5b5; 0x240ca1cc77ac9c65; 0x2de92c6f592b0275;
   0x4a7484aa6ea6e483; 0x5cb0a9dcbd41fbd4; 0x76f988da831153b5;
   0x983e5152ee66dfab; 0xa831c66d2db43210; 0xb00327c898fb213f;
   0xbf597fc7beef0ee4; 0xc6e00bf33da88fc2; 0xd5a79147930aa725;
   0x06ca6351e003826f; 0x142929670a0e6e70; 0x27b70a8546d22ffc;
   0x2e1b21385c26c926; 0x4d2c6dfc5ac42aed; 0x53380d139d95b3df;
   0x650a73548baf63de; 0x766a0abb3c77b2a8; 0x81c2c92e47edaee6;
   0x92722c851482353b; 0xa2bfe8a14cf10364; 0xa81a664bbc423001;
   0xc24b8b70d0f89791; 0xc76c51a30654be30; 0xd192e819d6ef5218;
   0xd69906245565a910; 0xf40e35855771202a; 0x106aa07032bbd1b8;
   0x19a4c116b8d2d0c8; 0x1e376c085141ab53; 0x2748774cdf8eeb99;
   0x34b0bcb5e19b48a8; 0x391c0cb3c5c95a63; 0x4ed8aa4ae3418acb;
   0x5b9cca4f7763e373; 0x682e6ff3d6b2b8a3; 0x748f82ee5defb2fc;
   0x78a5636f43172f60; 0x84c87814a1f0ab72; 0x8cc702081a6439ec;
   0x90befffa23631e28; 0xa4506cebde82bde9; 0xbef9a3f7b2c67915;
   0xc67178f2e372532b; 0xca273eceea26619c; 0xd186b8c721c0c207;
   0xeada7dd6cde0eb1e; 0xf57d4f7fee6ed178; 0x06f067aa72176fba;
   0x0a637dc5a2c898a6; 0x113f9804bef90dae; 0x1b710b35131c471b;
   0x28db77f523047d84; 0x32caab7b40c72493; 0x3c9ebe0a15c9bebc;
   0x431d67c49c100d4c; 0x4cc5d4becb3e42b6; 0x597f299cfc657e2a;
   0x5fcb6fab3ad6faec; 0x6c44198c4a475817
  ].

Definition init : list Z :=
  [
   0x6a09e667f3bcc908; 0xbb67ae8584caa73b; 0x3c6ef372fe94f82b;
   0xa54ff53a5f1d36f1; 0x510e527fade682d1; 0x9b05688c2b3e6c1f;
   0x1f83d9abfb41bd6b; 0x5be0cd19137e2179
  ].

(** Big-endian number of a byte sequence, and the [n] bytes of a number. *)
Definition be (bs : list Z) : Z := fold_left (fun acc b => acc * 256 + b) bs 0.

Fixpoint be_bytes (n : nat) (x : Z) : list Z :=
  match n with
  | O => []
  | S n' => (be_bytes n' (x / 256) ++ [x mod 256])%list
  end.

(** The message schedule, most recent word first: from [w[i-1] .. w[i-16]]
    the loop [for i := 16; i < 80; i++] computes [w[i]]. *)
Fixpoint schedule (n : nat) (w : list Z) : list Z :=
  match n with
  | O => w
  | S n' =>
      let v1 := nth 1 w 0 in
      let t1 := Z.lxor (Z.lxor (rotr v1 19) (rotr v1 61)) (Z.shiftr v1 6) in
      let v2 := nth 14 w 0 in
      let t2 := Z.lxor (Z.lxor (rotr v2 1) (rotr v2 8)) (Z.shiftr v2 7) in
      schedule n' (add64 (add64 (add64 t1 (nth 6 w 0)) t2) (nth 15 w 0) :: w)
  end.

Fixpoint words (n : nat) (p : list Z) : list Z :=
  match n with
  | O => []
  | S n' => be (firstn 8 p) :: words n' (skipn 8 p)
  end.

Record regs : Type := mkregs
  { ra : Z; rb : Z; rc : Z; rd : Z; re : Z; rf : Z; rg : Z; rh : Z }.

(** One round: the body of [for i := 0; i < 80; i++]. *)
Definition round (s : regs) (kw : Z * Z) : regs :=
  let '(k, w) := kw in
  let '(mkregs a b c d e f g h) := s in
  let t1 :=
    add64 (add64 (add64 (add64 h
      (Z.lxor (Z.lxor (rotr e 14) (rotr e 18)) (rotr e 41)))
      (Z.lxor (Z.land e f) (Z.land (not64 e) g))) k) w in
  let t2 :=
    add64 (Z.lxor (Z.lxor (rotr a 28) (rotr a 34)) (rotr a 39))
          (Z.lxor (Z.lxor (Z.land a b) (Z.land a c)) (Z.land b c)) in
  mkregs (add64 t1 t2) a b c (add64 d t1) e f g.

(** [blockGeneric] on one chunk of 128 bytes. *)
Definition block (h : regs) (p : list Z) : regs :=
  let w := rev (schedule 64 (rev (words 16 p))) in
  let s := fold_left round (combine _K w) h in
  mkregs (add64 (ra h) (ra s)) (add64 (rb h) (rb s))
         (add64 (rc h) (rc s)) (add64 (rd h) (rd s))
         (add64 (re h) (re s)) (add64 (rf h) (rf s))
         (add64 (rg h) (rg s)) (add64 (rh h) (rh s)).

(** [for len(p) >= chunk { ...; p = p[chunk:] }] *)
Fixpoint blocks (n : nat) (h : regs) (p : list Z) : regs :=
  match n with
  | O => h
  | S n' => blocks n' (block h (firstn 128 p)) (skipn 128 p)
  end.

(** The padding of [checkSum]: [0x80], zeros up to 112 modulo 128, eight
    zero bytes and the length in bits on 64 bits. *)
Definition padding (length : Z) : list Z :=
  let t :=
    if length mod 128 <? 112 then 112 - length mod 128
    else 128 + 112 - length mod 128 in
  (0x80 :: repeat 0 (Z.to_nat (t - 1)) ++ repeat 0 8
     ++ be_bytes 8 ((length * 8) mod 2 ^ 64))%list.

Definition init_regs : regs :=
  mkregs (nth 0 init 0) (nth 1 init 0) (nth 2 init 0) (nth 3 init 0)
         (nth 4 init 0) (nth 5 init 0) (nth 6 init 0) (nth 7 init 0).

(** The digest of the bytes [data]: [Write(data)] then [Sum(nil)]. *)
Definition Sum512 (data : list Z) : list Z :=
  let p := (data ++ padding (Z.of_nat (List.length data)))%list in
  let s := blocks (Nat.div (List.length p) 128) init_regs p in
  flat_map (be_bytes 8) [ra s; rb s; rc s; rd s; re s; rf s; rg s; rh s].

(** [sha512.New] *)
Definition New : hash.Hash :=
  {| hash.Size := 64; hash.BlockSize := 128; hash.digest := Sum512 |}.

End sha512.

Definition xorBytes (x y : list Z) : list Z :=
  map (fun '(a, b) => Z.lxor a b) (combine x y).

(** *** [crypto/hmac] *)

Module hmac.

(** The state of an [hmac] object: its two pads and the bytes written to
    the inner hash after the inner pad. *)
Record t : Type := mk
  { h : hash.Hash;
    ipad : list Z;
    opad : list Z;
    inner : list Z }.

(** [copy(dst, src)] *)
Definition copy (dst src : list Z) : list Z :=
  (firstn (List.length dst) src ++ skipn (List.length src) dst)%list.

(** [hmac.New(h, key)]: a key longer than a block is hashed first; the pads
    are the key, filled with zeros to a block, xored with [0x36] and
    [0x5c]. *)
Definition New (h : hash.Hash) (key : list Z) : t :=
  let blocksize := Z.to_nat (hash.BlockSize h) in
  let key :=
    if hash.BlockSize h <? Z.of_nat (List.length key) then hash.digest h key else key in
  let ipad := copy (repeat 0 blocksize) key in
  let opad := copy (repeat 0 blocksize) key in
  {| h := h;
     ipad := map (fun b => Z.lxor b 0x36) ipad;
     opad := map (fun b => Z.lxor b 0x5c) opad;
     inner := [] |}.

Definition Size (hm : t) : Z := hash.Size (h hm).

Definition Write (hm : t) (p : list Z) : t :=
  {| h := h hm; ipad := ipad hm; opad := opad hm; inner := (inner hm ++ p)%list |}.

Definition Reset (hm : t) : t :=
  {| h := h hm; ipad := ipad hm; opad := opad hm; inner := [] |}.

(** [Sum(in)]: [in] followed by the outer hash of the outer pad and the
    inner digest. *)
Definition Sum (hm : t) (in_ : list Z) : list Z :=
  let inner_sum := hash.digest (h hm) (ipad hm ++ inner hm)%list in
  (in_ ++ hash.digest (h hm) (opad hm ++ inner_sum))%list.

End hmac.

(** *** [golang.org/x/crypto/pbkdf2] *)

Module pbkdf2.

(** The state of the loops of [Key]: the object [prf], the buffer [dk]
    and the slice [U].  The slice [T] of the code is no variable of its
    own: it is [dk[len(dk)-hashLen:]], the last block of [dk], and the code
    writes [dk] through it. *)
Record state : Type := mkstate
  { prf : hmac.t;
    dk : list Z;
    U : list Z }.

(** [T[x] ^= U[x]] for every [x] of [U], [T] being the last [hashLen]
    bytes of [dk]. *)
Definition xorIntoLast (hashLen : nat) (dk U : list Z) : list Z :=
  let k := (List.length dk - hashLen)%nat in
  (firstn k dk ++ xorBytes (skipn k dk) U)%list.

(** The body of [for n := 2; n <= iter; n++]. *)
Definition iteration (hashLen : nat) (s : state) : state :=
  let prf := hmac.Write (hmac.Reset (prf s)) (U s) in
  let U := hmac.Sum prf [] in
  {| prf := prf; dk := xorIntoLast hashLen (dk s) U; U := U |}.

Fixpoint iterations (count : nat) (hashLen : nat) (s : state) : state :=
  match count with
  | O => s
  | S count' => iterations count' hashLen (iteration hashLen s)
  end.

(** The body of [for block := 1; block <= numBlocks; block++]. *)
Definition blockStep (salt : list Z) (iter : Z) (hashLen : nat) (block : Z) (s : state) : state :=
  let prf := hmac.Write (hmac.Reset (prf s)) salt in
  let buf :=
    [Z.shiftr block 24 mod 256; Z.shiftr block 16 mod 256;
     Z.shiftr block 8 mod 256; block mod 256] in
  let prf := hmac.Write prf buf in
  let dk := hmac.Sum prf (dk s) in
  let T := skipn (List.length dk - hashLen) dk in
  let U := hmac.copy (U s) T in
  iterations (Z.to_nat (iter - 1)) hashLen {| prf := prf; dk := dk; U := U |}.

Fixpoint blockLoop (count : nat) (salt : list Z) (iter : Z) (hashLen : nat) (block : Z)
    (s : state) : state :=
  match count with
  | O => s
  | S count' =>
      blockLoop count' salt iter hashLen (block + 1) (blockStep salt iter hashLen block s)
  end.

(** [pbkdf2.Key(password, salt, iter, keyLen, h)] *)
Definition Key (password salt : list Z) (iter keyLen : Z) (h : hash.Hash) : list Z :=
  let prf := hmac.New h password in
  let hashLen := hmac.Size prf in
  let numBlocks := Z.quot (keyLen + hashLen - 1) hashLen in
  let s :=
    blockLoop (Z.to_nat numBlocks) salt iter (Z.to_nat hashLen) 1
      {| prf := prf; dk := []; U := repeat 0 (Z.to_nat hashLen) |} in
  firstn (Z.to_nat keyLen) (dk s).

End pbkdf2.

(** *** [encoding/base64] *)

Module base64.

Definition encodeStd : string :=
  "ABCDEFGHIJKLMNOPQRSTUVWXYZabcdefghijklmnopqrstuvwxyz0123456789+/".

(** [enc.encode[i]] *)
Definition encode (i : Z) : ascii :=
  match String.get (Z.to_nat i) encodeStd with
  | Some c => c
  | None => "="%char
  end.

Definition StdPadding : ascii := "="%char.

(** [StdEncoding.EncodeToString]: three bytes give four characters; a
    remainder of one or two bytes gives two or three characters and the
    padding. *)
Fixpoint EncodeToString (src : list Z) : string :=
  match src with
  | [] => EmptyString
  | [a] =>
      let val := Z.shiftl a 16 in
      String (encode (Z.land (Z.shiftr val 18) 0x3F))
        (String (encode (Z.land (Z.shiftr val 12) 0x3F))
           (String StdPadding (String StdPadding EmptyString)))
  | [a; b] =>
      let val := Z.lor (Z.shiftl a 16) (Z.shiftl b 8) in
      String (encode (Z.land (Z.shiftr val 18) 0x3F))
        (String (encode (Z.land (Z.shiftr val 12) 0x3F))
           (String (encode (Z.land (Z.shiftr val 6) 0x3F))
              (String StdPadding EmptyString)))
  | a :: b :: c :: rest =>
      let val := Z.lor (Z.lor (Z.shiftl a 16) (Z.shiftl b 8)) c in
      String (encode (Z.land (Z.shiftr val 18) 0x3F))
        (String (encode (Z.land (Z.shiftr val 12) 0x3F))
           (String (encode (Z.land (Z.shiftr val 6) 0x3F))
              (String (encode (Z.land val 0x3F)) (EncodeToString rest))))
  end.

End base64.

(** *** The two secrets *)

(** [pass := fmt.Sprintf("%s-%s-%s-%s", pkey, vcsName, repoName, uuid)] *)
Definition GenerateRepositoryWebHookSecret
    (hookSecretKey pkey vcsName repoName uuid : string) : string :=
  let pass := pkey ++ "-" ++ vcsName ++ "-" ++ repoName ++ "-" ++ uuid in
  let keyBytes :=
    pbkdf2.Key (bytes_of_string pass) (bytes_of_string hookSecretKey) 4096 128 sha512.New in
  let key64 := base64.EncodeToString keyBytes in
  key64.

(** [pass := fmt.Sprintf("%s-%s-%s-%s-%s", pkey, vcsName, repoName,
    workflowName, uuid)] *)
Definition GenerateWorkflowWebHookSecret
    (hookSecretKey pkey vcsName repoName workflowName uuid : string) : string :=
  let pass :=
    pkey ++ "-" ++ vcsName ++ "-" ++ repoName ++ "-" ++ workflowName ++ "-" ++ uuid in
  let keyBytes :=
    pbkdf2.Key (bytes_of_string pass) (bytes_of_string hookSecretKey) 4096 128 sha512.New in
  let key64 := base64.EncodeToString keyBytes in
  key64.

(** ** The reference derivation

    The derivation as the specification words it: the identifying fields
    joined by a separator, PBKDF2 (RFC 8018, section 5.2) over HMAC
    (RFC 2104) with SHA-512, 4096 iterations, 128 bytes, standard base64.
    It is compared with the code's functions below. *)

Module Reference.

(** HMAC: [H(K xor opad, H(K xor ipad, text))], the key [K] hashed when
    longer than a block of [B] bytes and then filled with zeros to [B]. *)
Definition HMAC (H : hash.Hash) (K text : list Z) : list Z :=
  let B := Z.to_nat (hash.BlockSize H) in
  let K0 := if (B <? List.length K)%nat then hash.digest H K else K in
  let K1 := (K0 ++ repeat 0 (B - List.length K0))%list in
  hash.digest H
    (map (fun b => Z.lxor b 0x5c) K1
       ++ hash.digest H (map (fun b => Z.lxor b 0x36) K1 ++ text))%list.

(** [INT(i)]: the four-octet encoding of [i], most significant octet
    first. *)
Definition INT (i : Z) : list Z := sha512.be_bytes 4 i.

Section PBKDF2.

Variable PRF : list Z -> list Z -> list Z.
Variables P S : list Z.

(** [U_ i j] is [U_(j+1)] of block [i]: [U_1 = PRF(P, S || INT(i))] and
    [U_j = PRF(P, U_(j-1))]. *)
Fixpoint U_ (i : Z) (j : nat) : list Z :=
  match j with
  | O => PRF P (S ++ INT i)%list
  | Datatypes.S j' => PRF P (U_ i j')
  end.

(** [F(P, S, c, i) = U_1 xor U_2 xor ... xor U_c] *)
Definition F (c : nat) (i : Z) : list Z :=
  fold_left xorBytes (map (U_ i) (seq 1 (c - 1))) (U_ i 0).

(** [DK = T_1 || T_2 || ... || T_l], cut to [dkLen] bytes, with
    [l = ceil(dkLen / hLen)] and [T_i = F(P, S, c, i)]. *)
Definition PBKDF2 (hLen : Z) (c : Z) (dkLen : Z) : list Z :=
  let l := (dkLen + hLen - 1) / hLen in
  firstn (Z.to_nat dkLen)
    (List.concat (map (fun i => F (Z.to_nat c) (Z.of_nat i)) (seq 1 (Z.to_nat l)))).

End PBKDF2.

(** The fields joined by the separator [-]. *)
Definition passphrase (fields : list string) : string := String.concat "-" fields.

Definition secret (masterKey : string) (fields : list string) : string :=
  base64.EncodeToString
    (PBKDF2 (HMAC sha512.New) (bytes_of_string (passphrase fields))
       (bytes_of_string masterKey) 64 4096 128).

End Reference.

(** ** Definitions used in the statements *)


(** The enumerated combinations of an event name with an event type. *)
Definition validCombinations : list (WorkflowHookEventName * WorkflowHookEventType) :=
  [(WorkflowHookEventNamePullRequest, WorkflowHookEventTypePullRequestOpened);
   (WorkflowHookEventNamePullRequest, WorkflowHookEventTypePullRequestReopened);
   (WorkflowHookEventNamePullRequest, WorkflowHookEventTypePullRequestClosed);
   (WorkflowHookEventNamePullRequest, WorkflowHookEventTypePullRequestEdited);
   (WorkflowHookEventNamePullRequestComment, WorkflowHookEventTypePullRequestCommentCreated);
   (WorkflowHookEventNamePullRequestComment, WorkflowHookEventTypePullRequestCommentDeleted);
   (WorkflowHookEventNamePullRequestComment, WorkflowHookEventTypePullRequestCommentEdited)].

Definition isCombination (n : WorkflowHookEventName) (t : WorkflowHookEventType) : bool :=
  existsb (fun c => (n =? fst c)%string && (t =? snd c)%string) validCombinations.

(** "True iff the type is empty or (name, type) is one of the enumerated
    combinations", as a decision. *)
Definition emptyOrCombination (t : WorkflowHookEventType) (n : WorkflowHookEventName) : bool :=
  (t =? EmptyString)%string || isCombination n t.

(** The double quote, as a string. *)
Definition dquote : string := String (char_of 34) EmptyString.



(** The lines of the detail of a [Done] event: one paragraph for every
    analysis with an error. *)
Definition errorLine (a : HookRepositoryEventAnalysis.t) : string :=
  LF ++ LF ++ "On project " ++ HookRepositoryEventAnalysis.ProjectKey a ++ ": "
     ++ HookRepositoryEventAnalysis.Error a.

Definition hasError (a : HookRepositoryEventAnalysis.t) : bool :=
  negb (HookRepositoryEventAnalysis.Error a =? EmptyString)%string.

Definition errorLines (l : list HookRepositoryEventAnalysis.t) : string :=
  String.concat EmptyString (map errorLine (filter hasError l)).

(** The number a decimal string denotes: an optional [-] and digits. *)
Fixpoint digitsValue (s : string) (acc : Z) : option Z :=
  match s with
  | EmptyString => Some acc
  | String c s' =>
      let d := byte_of c - 48 in
      if (0 <=? d) && (d <=? 9) then digitsValue s' (acc * 10 + d) else None
  end.

Definition decimalValue (s : string) : option Z :=
  match s with
  | EmptyString => None
  | String c s' =>
      if (c =? "-")%char then
        match s' with
        | EmptyString => None
        | _ => option_map Z.opp (digitsValue s' 0)
        end
      else digitsValue s 0
  end.

(** The aggregate item of the workflows: its text is the number of
    workflows, its link the list of runs filtered by the workflow ref and
    by the repository. *)
Definition aggregateData (h : HookRepositoryEvent.t) (uiURL : string)
    (w : HookRepositoryEventWorkflow.t) : VCSInsightData.t :=
  {| VCSInsightData.Title := "Nb of workflows triggered";
     VCSInsightData.Type_ := "LINK";
     VCSInsightData.Text :=
       strconv.Itoa (Z.of_nat (List.length (HookRepositoryEvent.WorkflowHooks h)));
     VCSInsightData.Href :=
       uiURL ++ "/project/" ++ HookRepositoryEventWorkflow.ProjectKey w
             ++ "/run?workflow_ref=" ++ url.PathEscape (HookRepositoryEventWorkflow.Ref w)
             ++ "&repository="
             ++ url.PathEscape (HookRepositoryEvent.VCSServerName h ++ "/"
                                  ++ HookRepositoryEvent.RepositoryName h) |}.

(** The header of the detail: [fmt.Sprintf("Event %q (%s): %s", ...)]. *)
Definition detailHeader (isPrintWide : Z -> bool) (h : HookRepositoryEvent.t) : string :=
  "Event " ++ strconv_Quote isPrintWide (HookRepositoryEvent.EventName h)
    ++ " (" ++ HookRepositoryEvent.UUID h ++ "): " ++ HookRepositoryEvent.Status h.

(** The items of the analyses: one per analysis up to five analyses, the
    item of the first analysis from six on. *)
Definition analysisItems (h : HookRepositoryEvent.t) (uiURL : string) : list VCSInsightData.t :=
  if (List.length (HookRepositoryEvent.Analyses h) <=? 5)%nat
  then map (analysisData h uiURL) (HookRepositoryEvent.Analyses h)
  else map (analysisData h uiURL) (firstn 1 (HookRepositoryEvent.Analyses h)).

(** The items of the workflows, after [m] items: one per workflow when
    the workflows and the [m] items are fewer than seven, one aggregate
    item otherwise. *)
Definition workflowItems (success : string) (h : HookRepositoryEvent.t) (uiURL : string)
    (m : nat) : list VCSInsightData.t :=
  if (List.length (HookRepositoryEvent.WorkflowHooks h) + m <? 7)%nat
  then map (workflowData success h uiURL) (HookRepositoryEvent.WorkflowHooks h)
  else map (aggregateData h uiURL) (firstn 1 (HookRepositoryEvent.WorkflowHooks h)).

(** Some events and their parts, for the examples. *)
Definition analysisOf (project error : string) : HookRepositoryEventAnalysis.t :=
  HookRepositoryEventAnalysis.mk "a1" "Success" project error 0.

Definition workflowOf (name : string) (run : Z) : HookRepositoryEventWorkflow.t :=
  HookRepositoryEventWorkflow.mk "PK" "github" "org/repo" name "refs/heads/main"
    "c0ffee" "Done" EmptyString "run-id" run.

Definition eventOf (name status : string)
    (analyses : list HookRepositoryEventAnalysis.t)
    (workflows : list HookRepositoryEventWorkflow.t) : HookRepositoryEvent.t :=
  HookRepositoryEvent.mk "uuid-1" name EmptyString "github" "org/repo" status "boom" 0
    analyses workflows.

Definition fiveAnalyses : list HookRepositoryEventAnalysis.t :=
  map (fun p => analysisOf p EmptyString) ["P1"; "P2"; "P3"; "P4"; "P5"].

(** An [hmac] object made from [hmac.New H password] by [Reset] and
    [Write]: it has the hash [H] and the pads of the password. *)
Definition keyedBy (H : hash.Hash) (password : list Z) (prf : hmac.t) : Prop :=
  hmac.h prf = H
  /\ hmac.ipad prf = hmac.ipad (hmac.New H password)
  /\ hmac.opad prf = hmac.opad (hmac.New H password).

(** For the examples: a table with no printable rune above [0xFF] (the
    examples hold no such rune), the status of a successful run, and bytes
    in hexadecimal. *)
Definition noWideRune : Z -> bool := fun _ => false.

Definition statusSuccess : string := "Success".

Definition hexString (l : list Z) : string :=
  string_of_bytes
    (flat_map (fun b => [byte_of (strconv.lowerhex (Z.shiftr b 4));
                         byte_of (strconv.lowerhex (Z.land b 15))]) l).

(** ** The outgoing workflow-run event

    [HookWorkflowRunEvent] is declared in another file of the package; its
    fields here are the ones [GetFullName] reads. *)
Module HookWorkflowRunEvent.
Record t : Type := mk
  { WorkflowProject : string;
    WorkflowVCSServer : string;
    WorkflowRepository : string;
    WorkflowName : string }.
End HookWorkflowRunEvent.

Module HookWorkflowRunOutgoingEvent.
Record t : Type := mk
  { UUID : string;
    Created : Z;
    ProcessingTimestamp : Z;
    LastUpdate : Z;
    Event : HookWorkflowRunEvent.t;
    Status : string;
    LastError : string;
    NbErrors : Z }.

(** [fmt.Sprintf("%s/%s/%s/%s/%s", h.Event.WorkflowProject,
    h.Event.WorkflowVCSServer, h.Event.WorkflowRepository,
    h.Event.WorkflowName, h.UUID)] *)
Definition GetFullName (h : t) : string :=
  HookWorkflowRunEvent.WorkflowProject (Event h) ++ "/"
    ++ HookWorkflowRunEvent.WorkflowVCSServer (Event h) ++ "/"
    ++ HookWorkflowRunEvent.WorkflowRepository (Event h) ++ "/"
    ++ HookWorkflowRunEvent.WorkflowName (Event h) ++ "/"
    ++ UUID h.
End HookWorkflowRunOutgoingEvent.

(** ** Further definitions used in the statements *)

(** The character [c] occurs in [s]. *)
Fixpoint contains (c : ascii) (s : string) : bool :=
  match s with
  | EmptyString => false
  | String x s' => (x =? c)%char || contains c s'
  end.

Definition slash : ascii := "/"%char.

(** Every character of [s] satisfies [p]. *)
Fixpoint stringForall (p : ascii -> bool) (s : string) : bool :=
  match s with
  | EmptyString => true
  | String c s' => p c && stringForall p s'
  end.

(** A character of the standard base64 alphabet, or the padding. *)
Definition base64Char (c : ascii) : bool :=
  contains c base64.encodeStd || (c =? base64.StdPadding)%char.

(** A byte that [url.PathEscape] lets into its output: a letter, a digit,
    one of the marks and reserved characters a path segment keeps, or the
    [%] of an escape. *)
Definition pathSegmentByte (c : Z) : bool :=
  url.alphanum c || url.is_one_of c "-_.~$&+:=@%".

Definition pathSegmentChar (c : ascii) : bool := pathSegmentByte (byte_of c).

(** The reading of an escaped path segment: [%XX] is the byte of the two
    hexadecimal digits, every other byte is itself. *)
Definition unhex (d : Z) : Z := if d <? 58 then d - 48 else d - 55.

Fixpoint unescapeBytes (l : list Z) : list Z :=
  match l with
  | [] => []
  | c :: t =>
      if c =? 37 then
        match t with
        | hi :: lo :: rest => (16 * unhex hi + unhex lo) :: unescapeBytes rest
        | _ => c :: unescapeBytes t
        end
      else c :: unescapeBytes t
  end.

(** The check of one byte: what [escape_byte] writes for it is made of
    bytes a path segment keeps, and reads back as the byte. *)
Definition escapeByteChecks (c : Z) : bool :=
  forallb (fun o => (0 <=? o) && (o <? 256) && pathSegmentByte o) (url.escape_byte c)
  && match url.escape_byte c with
     | [o] => (o =? c) && negb (o =? 37)
     | [p; hi; lo] => (p =? 37) && (16 * unhex hi + unhex lo =? c)
     | _ => false
     end.

(** A byte that is no control character: not below the space, and not
    DEL. *)
Definition visibleByte (b : Z) : bool :=
  (32 <=? b) && (b <? 256) && negb (b =? 127).

Definition visibleChar (c : ascii) : bool := visibleByte (byte_of c).

(** Events for the examples: six and eleven analyses with the same first
    one, seven workflows with first workflows of the same project and ref. *)
Definition sixAnalysesEvent : HookRepositoryEvent.t :=
  eventOf "push" "Done" (analysisOf "P0" EmptyString :: fiveAnalyses) [].

Definition elevenAnalysesEvent : HookRepositoryEvent.t :=
  eventOf "push" "Done" (analysisOf "P0" EmptyString :: fiveAnalyses ++ fiveAnalyses) [].

Definition sevenBuildsEvent : HookRepositoryEvent.t :=
  eventOf "push" "Done" [] (map (workflowOf "build") [1; 2; 3; 4; 5; 6; 7]).

Definition sevenTestsEvent : HookRepositoryEvent.t :=
  eventOf "push" "Done" [] (workflowOf "deploy" 9 :: map (workflowOf "test") [2; 3; 4; 5; 6; 7]).

(** An outgoing event, for the examples. *)
Definition outgoingOf (repository uuid : string) : HookWorkflowRunOutgoingEvent.t :=
  HookWorkflowRunOutgoingEvent.mk uuid 0 0 0
    (HookWorkflowRunEvent.mk "PK" "github" repository "build") "Done" EmptyString 0.

(** ** Event names and event types *)

Lemma C2_examples :
  IsValidForEventName "opened" "pull-request" = true
  /\ IsValidForEventName "opened" "push" = false
  /\ IsValidForEventName EmptyString "push" = true.
Proof. repeat split. Qed.

Ltac unfold_names :=
  unfold WorkflowHookEventNamePullRequest, WorkflowHookEventNamePullRequestComment,
    WorkflowHookEventTypePullRequestOpened, WorkflowHookEventTypePullRequestReopened,
    WorkflowHookEventTypePullRequestClosed, WorkflowHookEventTypePullRequestEdited,
    WorkflowHookEventTypePullRequestCommentCreated,
    WorkflowHookEventTypePullRequestCommentDeleted,
    WorkflowHookEventTypePullRequestCommentEdited.

Ltac string_cases :=
  repeat match goal with
    | |- context [(?a =? ?b)%string] =>
        let E := fresh "E" in
        destruct (String.eqb_spec a b) as [E | E]; [try subst | ]
    end.

(** C7: [IsValidForEventName] accepts exactly these classifications: for
    the name pull-request the type is one of opened, reopened, closed,
    edited; for the name pull-request-comment the type is one of created,
    deleted, edited; for every other name the type is the empty string. *)
Theorem C7_IsValidForEventName_classification :
  forall (t : WorkflowHookEventType) (n : WorkflowHookEventName),
    (n = "pull-request" ->
       (IsValidForEventName t n = true <->
          t = "opened" \/ t = "reopened" \/ t = "closed" \/ t = "edited"))
    /\ (n = "pull-request-comment" ->
       (IsValidForEventName t n = true <->
          t = "created" \/ t = "deleted" \/ t = "edited"))
    /\ (n <> "pull-request" -> n <> "pull-request-comment" ->
       (IsValidForEventName t n = true <-> t = EmptyString)).
Proof.
  intros t n. unfold IsValidForEventName. unfold_names.
  split; [| split].
  - intros ->. simpl.
    string_cases; simpl; split; intros H; try discriminate; auto;
      destruct H as [H | [H | [H | H]]]; congruence.
  - intros ->. simpl.
    string_cases; simpl; split; intros H; try discriminate; auto;
      destruct H as [H | [H | H]]; congruence.
  - intros H1 H2.
    destruct (String.eqb_spec n "pull-request") as [E | _]; [contradiction |].
    destruct (String.eqb_spec n "pull-request-comment") as [E | _]; [contradiction |].
    destruct (String.eqb_spec t EmptyString); split; congruence.
Qed.

Lemma isCombination_In (n : WorkflowHookEventName) (t : WorkflowHookEventType) :
  isCombination n t = true <-> In (n, t) validCombinations.
Proof.
  unfold isCombination. rewrite existsb_exists. split.
  - intros [[n' t'] [HIn H]]. simpl in H.
    apply andb_true_iff in H. destruct H as [Hn Ht].
    apply String.eqb_eq in Hn, Ht. subst. exact HIn.
  - intros HIn. exists (n, t). split; [exact HIn |].
    simpl. now rewrite !String.eqb_refl.
Qed.

Lemma IsValidForEventName_bool (t : WorkflowHookEventType) (n : WorkflowHookEventName) :
  IsValidForEventName t n =
    isCombination n t
    || ((t =? EmptyString)%string
        && negb (n =? "pull-request")%string
        && negb (n =? "pull-request-comment")%string).
Proof.
  unfold IsValidForEventName, isCombination, validCombinations. cbn.
  unfold_names.
  destruct (String.eqb_spec n "pull-request") as [-> | E1]; cbn.
  - rewrite !andb_false_r, !orb_false_r.
    repeat match goal with
      | |- context [(t =? ?x)%string] => destruct (t =? x)%string
      end; reflexivity.
  - destruct (String.eqb_spec n "pull-request-comment") as [-> | E2]; cbn.
    + rewrite !andb_false_r, !orb_false_r.
      repeat match goal with
        | |- context [(t =? ?x)%string] => destruct (t =? x)%string
        end; reflexivity.
    + rewrite !andb_true_r. reflexivity.
Qed.

(** C2, as the code has it: [IsValidForEventName] returns true if and
    only if (name, type) is one of the enumerated combinations, or the
    type is the empty string and the name is neither pull-request nor
    pull-request-comment; (pull-request, opened) yields true,
    (push, opened) false and (push, empty) true. *)
Theorem C2_IsValidForEventName_iff :
  (forall (t : WorkflowHookEventType) (n : WorkflowHookEventName),
     IsValidForEventName t n = true <->
       In (n, t) validCombinations
       \/ (t = EmptyString /\ n <> "pull-request" /\ n <> "pull-request-comment"))
  /\ IsValidForEventName "opened" "pull-request" = true
  /\ IsValidForEventName "opened" "push" = false
  /\ IsValidForEventName EmptyString "push" = true.
Proof.
  split; [| exact C2_examples].
  intros t n. rewrite IsValidForEventName_bool.
  rewrite orb_true_iff, !andb_true_iff, !negb_true_iff, isCombination_In,
    String.eqb_eq, !String.eqb_neq.
  tauto.
Qed.

(** C2, as it is stated, fails at (pull-request, empty type): the type is
    empty, and the code rejects the pair. *)
Lemma C2_counterexample :
  emptyOrCombination EmptyString "pull-request" = true
  /\ IsValidForEventName EmptyString "pull-request" = false.
Proof. split; reflexivity. Qed.

(** ** Terminated events and dispatches *)

(** C8: [IsTerminated] is true if and only if the status is one of Done,
    Error, Skipped, on an event and on a workflow dispatch. *)
Theorem C8_IsTerminated_iff :
  (forall h : HookRepositoryEvent.t,
     HookRepositoryEvent.IsTerminated h = true <->
       HookRepositoryEvent.Status h = "Done"
       \/ HookRepositoryEvent.Status h = "Error"
       \/ HookRepositoryEvent.Status h = "Skipped")
  /\ (forall wh : HookRepositoryEventWorkflow.t,
     HookRepositoryEventWorkflow.IsTerminated wh = true <->
       HookRepositoryEventWorkflow.Status wh = "Done"
       \/ HookRepositoryEventWorkflow.Status wh = "Error"
       \/ HookRepositoryEventWorkflow.Status wh = "Skipped").
Proof.
  split.
  - intros h. unfold HookRepositoryEvent.IsTerminated,
      HookEventStatusDone, HookEventStatusError, HookEventStatusSkipped.
    rewrite !orb_true_iff, !String.eqb_eq. tauto.
  - intros wh. unfold HookRepositoryEventWorkflow.IsTerminated,
      HookEventWorkflowStatusDone, HookEventWorkflowStatusError,
      HookEventWorkflowStatusSkipped.
    rewrite !orb_true_iff, !String.eqb_eq. tauto.
Qed.

(** ** Strings and bytes *)

Lemma append_nil_r (s : string) : s ++ EmptyString = s.
Proof. induction s as [| c s IH]; simpl; [reflexivity | now rewrite IH]. Qed.

Lemma append_assoc (s1 s2 s3 : string) : (s1 ++ s2) ++ s3 = s1 ++ (s2 ++ s3).
Proof. induction s1 as [| c s1 IH]; simpl; [reflexivity | now rewrite IH]. Qed.

Lemma concat_empty_cons (x : string) (xs : list string) :
  String.concat EmptyString (x :: xs) = x ++ String.concat EmptyString xs.
Proof. destruct xs; simpl; [now rewrite append_nil_r | reflexivity]. Qed.

Lemma char_of_byte_of (c : ascii) : char_of (byte_of c) = c.
Proof. unfold char_of, byte_of. rewrite N2Z.id. apply ascii_N_embedding. Qed.

Lemma byte_of_range (c : ascii) : 0 <= byte_of c < 256.
Proof.
  unfold byte_of. pose proof (N_ascii_bounded c) as H. lia.
Qed.

Lemma string_of_bytes_of_string (s : string) : string_of_bytes (bytes_of_string s) = s.
Proof.
  unfold string_of_bytes, bytes_of_string. rewrite map_map.
  rewrite (map_ext _ (fun c => c) char_of_byte_of), map_id.
  apply string_of_list_ascii_of_string.
Qed.


(** ** The report: the steps of [ToInsightReport] *)

Section ReportProofs.

Variable isPrintWide : Z -> bool.
Variable success : string.

Lemma fold_appendData {A : Type} (f : A -> VCSInsightData.t) (l : list A) :
  forall report,
    fold_left (fun report a => appendData report (f a)) l report =
      {| VCSInsight.Title := VCSInsight.Title report;
         VCSInsight.Detail := VCSInsight.Detail report;
         VCSInsight.Datas := (VCSInsight.Datas report ++ map f l)%list |}.
Proof.
  induction l as [| a l IH]; intros report; simpl.
  - rewrite app_nil_r. now destruct report.
  - rewrite IH. unfold appendData. simpl. now rewrite <- app_assoc.
Qed.

Lemma errorLines_cons (a : HookRepositoryEventAnalysis.t)
    (l : list HookRepositoryEventAnalysis.t) :
  errorLines (a :: l) = if hasError a then errorLine a ++ errorLines l else errorLines l.
Proof.
  unfold errorLines. simpl. destruct (hasError a); [| reflexivity].
  apply concat_empty_cons.
Qed.

Lemma fold_errorLines (l : list HookRepositoryEventAnalysis.t) :
  forall report,
    fold_left
      (fun report a =>
         if negb (HookRepositoryEventAnalysis.Error a =? EmptyString)%string then
           setDetail report
             (VCSInsight.Detail report ++ LF ++ LF ++ "On project "
                ++ HookRepositoryEventAnalysis.ProjectKey a ++ ": "
                ++ HookRepositoryEventAnalysis.Error a)
         else report) l report =
      setDetail report (VCSInsight.Detail report ++ errorLines l).
Proof.
  induction l as [| a l IH]; intros report.
  - simpl. unfold errorLines. simpl. rewrite append_nil_r. now destruct report.
  - simpl fold_left. rewrite IH, errorLines_cons. unfold hasError.
    destruct (negb (HookRepositoryEventAnalysis.Error a =? EmptyString)%string).
    + unfold setDetail. cbn [VCSInsight.Detail VCSInsight.Title VCSInsight.Datas].
      rewrite append_assoc. reflexivity.
    + reflexivity.
Qed.

Lemma reportDetail_spec (h : HookRepositoryEvent.t) :
  reportDetail isPrintWide h =
    {| VCSInsight.Title := "CDS";
       VCSInsight.Detail :=
         detailHeader isPrintWide h ++
           (if (HookRepositoryEvent.Status h =? HookEventStatusDone)%string
            then errorLines (HookRepositoryEvent.Analyses h)
            else LF ++ LF ++ HookRepositoryEvent.LastError h);
       VCSInsight.Datas := [] |}.
Proof.
  unfold reportDetail, detailHeader.
  destruct (HookRepositoryEvent.Status h =? HookEventStatusDone)%string; simpl.
  - rewrite fold_errorLines. unfold setDetail. simpl. now rewrite !append_assoc.
  - unfold setDetail. simpl. now rewrite !append_assoc.
Qed.

Lemma reportAnalyses_spec (h : HookRepositoryEvent.t) (uiURL : string) (report : VCSInsight.t) :
  reportAnalyses h uiURL report =
    Some {| VCSInsight.Title := VCSInsight.Title report;
            VCSInsight.Detail := VCSInsight.Detail report;
            VCSInsight.Datas := (VCSInsight.Datas report ++ analysisItems h uiURL)%list |}.
Proof.
  unfold reportAnalyses, analysisItems.
  destruct (Z.ltb_spec (Z.of_nat (List.length (HookRepositoryEvent.Analyses h))) 6) as [Hlt | Hge].
  - rewrite fold_appendData.
    destruct (Nat.leb_spec (List.length (HookRepositoryEvent.Analyses h)) 5); [reflexivity | lia].
  - destruct (Nat.leb_spec (List.length (HookRepositoryEvent.Analyses h)) 5); [lia |].
    destruct (Z.ltb_spec 0 (Z.of_nat (List.length (HookRepositoryEvent.Analyses h)))); [| lia].
    destruct (HookRepositoryEvent.Analyses h) as [| a l]; [simpl in *; lia |].
    reflexivity.
Qed.

Lemma analysisItems_length (h : HookRepositoryEvent.t) (uiURL : string) :
  (List.length (analysisItems h uiURL) <= 5)%nat.
Proof.
  unfold analysisItems.
  destruct (Nat.leb_spec (List.length (HookRepositoryEvent.Analyses h)) 5).
  - now rewrite length_map.
  - rewrite length_map, length_firstn. lia.
Qed.

Lemma reportWorkflows_spec (h : HookRepositoryEvent.t) (uiURL : string) (report : VCSInsight.t) :
  (List.length (VCSInsight.Datas report) <= 5)%nat ->
  reportWorkflows success h uiURL report =
    Some {| VCSInsight.Title := VCSInsight.Title report;
            VCSInsight.Detail := VCSInsight.Detail report;
            VCSInsight.Datas :=
              (VCSInsight.Datas report
                 ++ workflowItems success h uiURL (List.length (VCSInsight.Datas report)))%list |}.
Proof.
  intros Hm. unfold reportWorkflows, workflowItems.
  destruct (Z.ltb_spec
              (Z.of_nat (List.length (HookRepositoryEvent.WorkflowHooks h))
               + Z.of_nat (List.length (VCSInsight.Datas report))) 7) as [Hlt | Hge].
  - rewrite fold_appendData.
    destruct (Nat.ltb_spec
                (List.length (HookRepositoryEvent.WorkflowHooks h)
                 + List.length (VCSInsight.Datas report)) 7); [reflexivity | lia].
  - destruct (Nat.ltb_spec
                (List.length (HookRepositoryEvent.WorkflowHooks h)
                 + List.length (VCSInsight.Datas report)) 7); [lia |].
    destruct (HookRepositoryEvent.WorkflowHooks h) as [| w l] eqn:E; [simpl in *; lia |].
    simpl. unfold appendData, aggregateData. simpl. rewrite E. reflexivity.
Qed.

(** The whole report: [ToInsightReport] returns, and its result is made of
    the title, the detail, the analysis items and the workflow items. *)
Lemma ToInsightReport_spec (h : HookRepositoryEvent.t) (uiURL : string) :
  ToInsightReport isPrintWide success h uiURL =
    Some {| VCSInsight.Title := "CDS";
            VCSInsight.Detail :=
              detailHeader isPrintWide h ++
                (if (HookRepositoryEvent.Status h =? HookEventStatusDone)%string
                 then errorLines (HookRepositoryEvent.Analyses h)
                 else LF ++ LF ++ HookRepositoryEvent.LastError h);
            VCSInsight.Datas :=
              (analysisItems h uiURL
                 ++ workflowItems success h uiURL (List.length (analysisItems h uiURL)))%list |}.
Proof.
  unfold ToInsightReport.
  rewrite reportAnalyses_spec, reportDetail_spec. simpl.
  rewrite reportWorkflows_spec; simpl; [reflexivity | apply analysisItems_length].
Qed.

End ReportProofs.

(** ** Quoting a plain name *)







(** ** Decimal strings *)

Lemma byte_of_char_of (b : Z) : 0 <= b < 256 -> byte_of (char_of b) = b.
Proof.
  intros H. unfold byte_of, char_of.
  rewrite N_ascii_embedding by lia. lia.
Qed.

Lemma digit_not_minus (d : Z) : 0 <= d <= 9 -> (strconv.digit d =? "-")%char = false.
Proof.
  intros H. apply Ascii.eqb_neq. intros E.
  apply (f_equal byte_of) in E. unfold strconv.digit in E.
  rewrite byte_of_char_of in E by lia.
  change (byte_of "-") with 45 in E. lia.
Qed.

Lemma digitsValue_digit (d : Z) (rest : string) (a : Z) :
  0 <= d <= 9 ->
  digitsValue (String (strconv.digit d) rest) a = digitsValue rest (a * 10 + d).
Proof.
  intros H. simpl. unfold strconv.digit. rewrite byte_of_char_of by lia.
  replace (48 + d - 48) with d by lia.
  destruct (Z.leb_spec 0 d); [| lia]. destruct (Z.leb_spec d 9); [| lia].
  reflexivity.
Qed.

(** The digit loop writes, in front of [acc], a non-empty string of digits
    that denotes [u]. *)
Lemma formatBits_digits (fuel : nat) :
  forall (u : Z) (acc : string),
    (0 < fuel)%nat ->
    0 <= u < 10 ^ Z.of_nat fuel ->
    exists (c : ascii) (ds : string),
      strconv.formatBits fuel u acc = String c ds ++ acc
      /\ (c =? "-")%char = false
      /\ forall (rest : string) (a : Z),
           digitsValue (String c ds ++ rest) a =
             digitsValue rest (a * 10 ^ Z.of_nat (String.length (String c ds)) + u).
Proof.
  induction fuel as [| fuel IH]; intros u acc Hfuel Hu; [lia |].
  cbn [strconv.formatBits].
  destruct (Z.ltb_spec u 10) as [Hlt | Hge].
  - exists (strconv.digit u), EmptyString.
    rewrite Z.mod_small by lia. split; [reflexivity |]. split.
    + apply digit_not_minus. lia.
    + intros rest a. cbn [append]. rewrite digitsValue_digit by lia.
      cbn [String.length]. change (Z.of_nat 1) with 1. now rewrite Z.pow_1_r.
  - assert (Hf : (0 < fuel)%nat).
    { destruct fuel; [| lia]. simpl in Hu. lia. }
    assert (Hq : 0 <= u / 10 < 10 ^ Z.of_nat fuel).
    { split; [apply Z.div_pos; lia |].
      apply Z.div_lt_upper_bound; [lia |].
      rewrite Nat2Z.inj_succ, Z.pow_succ_r in Hu by lia. lia. }
    destruct (IH (u / 10) (String (strconv.digit (u mod 10)) acc) Hf Hq)
      as [c [ds [Heq [Hc Hval]]]].
    exists c, (ds ++ String (strconv.digit (u mod 10)) EmptyString).
    split; [| split].
    + rewrite Heq. cbn [append]. f_equal.
      rewrite append_assoc. reflexivity.
    + exact Hc.
    + intros rest a.
      pose proof (Z.mod_pos_bound u 10 ltac:(lia)) as Hm.
      change (String c (ds ++ String (strconv.digit (u mod 10)) EmptyString) ++ rest)
        with (String c ((ds ++ String (strconv.digit (u mod 10)) EmptyString) ++ rest)).
      rewrite append_assoc. cbn [append].
      change (String c (ds ++ String (strconv.digit (u mod 10)) rest))
        with (String c ds ++ String (strconv.digit (u mod 10)) rest).
      rewrite Hval, digitsValue_digit by lia. f_equal.
      assert (Hlen : Z.of_nat (String.length (String c (ds ++ String (strconv.digit (u mod 10)) EmptyString)))
                     = Z.of_nat (String.length (String c ds)) + 1).
      { cbn [String.length]. clear. induction ds as [| x ds IHds]; cbn [append String.length] in *; lia. }
      rewrite Hlen, Z.pow_add_r, Z.pow_1_r by lia.
      pose proof (Z.div_mod u 10 ltac:(lia)). lia.
Qed.

Lemma formatUint_digits (u : Z) :
  0 <= u ->
  exists (c : ascii) (ds : string),
    strconv.formatUint u = String c ds
    /\ (c =? "-")%char = false
    /\ digitsValue (String c ds) 0 = Some u.
Proof.
  intros Hu. unfold strconv.formatUint.
  assert (Hb : 0 <= u < 10 ^ Z.of_nat (S (Z.to_nat (Z.log2 u)))).
  { split; [exact Hu |].
    rewrite Nat2Z.inj_succ, Z2Nat.id by apply Z.log2_nonneg.
    destruct (Z.eq_dec u 0) as [-> | Hnz]; [reflexivity |].
    pose proof (Z.log2_spec u ltac:(lia)) as [_ H2].
    pose proof (Z.log2_nonneg u).
    apply Z.lt_le_trans with (2 ^ Z.succ (Z.log2 u)); [exact H2 |].
    apply Z.pow_le_mono_l. lia. }
  destruct (formatBits_digits (S (Z.to_nat (Z.log2 u))) u EmptyString
              (Nat.lt_0_succ _) Hb) as [c [ds [Heq [Hc Hval]]]].
  exists c, ds. rewrite Heq, append_nil_r. split; [reflexivity |]. split; [exact Hc |].
  specialize (Hval EmptyString 0). rewrite append_nil_r in Hval.
  rewrite Hval. reflexivity.
Qed.

(** [strconv.Itoa i] is a decimal string that denotes [i]. *)
Lemma Itoa_decimalValue (i : Z) : decimalValue (strconv.Itoa i) = Some i.
Proof.
  unfold strconv.Itoa, strconv.FormatInt.
  destruct (Z.ltb_spec i 0) as [Hneg | Hpos].
  - destruct (formatUint_digits (- i) ltac:(lia)) as [c [ds [Heq [_ Hval]]]].
    rewrite Heq. cbn [decimalValue]. rewrite Ascii.eqb_refl, Hval.
    simpl. f_equal. lia.
  - destruct (formatUint_digits i Hpos) as [c [ds [Heq [Hc Hval]]]].
    rewrite Heq. cbn [decimalValue]. rewrite Hc. exact Hval.
Qed.

(** ** The report: its properties *)

Section ReportClaims.

Variable isPrintWide : Z -> bool.
Variable success : string.
Variable h : HookRepositoryEvent.t.
Variable uiURL : string.

Lemma reportAnalyses_reportDetail :
  exists report0,
    reportAnalyses h uiURL (reportDetail isPrintWide h) = Some report0
    /\ VCSInsight.Datas report0 = analysisItems h uiURL
    /\ VCSInsight.Title report0 = "CDS"
    /\ ToInsightReport isPrintWide success h uiURL =
         reportWorkflows success h uiURL report0.
Proof.
  unfold ToInsightReport.
  rewrite reportAnalyses_spec, reportDetail_spec. simpl.
  eexists. split; [reflexivity |]. simpl. auto.
Qed.

Lemma workflowItems_length (m : nat) :
  (m <= 5)%nat ->
  (List.length (workflowItems success h uiURL m) + m <= 6)%nat.
Proof.
  intros Hm. unfold workflowItems.
  destruct (Nat.ltb_spec (List.length (HookRepositoryEvent.WorkflowHooks h) + m) 7).
  - rewrite length_map. lia.
  - rewrite length_map, length_firstn. lia.
Qed.

(** C10: the report has at most six items, and its title is "CDS". *)
Theorem C10_report_at_most_six_items :
  exists report,
    ToInsightReport isPrintWide success h uiURL = Some report
    /\ (List.length (VCSInsight.Datas report) <= 6)%nat
    /\ VCSInsight.Title report = "CDS".
Proof.
  rewrite ToInsightReport_spec. eexists. split; [reflexivity |]. simpl.
  split; [| reflexivity].
  rewrite length_app.
  pose proof (analysisItems_length h uiURL) as Ha.
  pose proof (workflowItems_length _ Ha). lia.
Qed.

(** C9: the analysis section produces at most five items; so, when the
    number of workflows plus the number of items already produced is at
    least seven, [WorkflowHooks[0]] exists, and [ToInsightReport]
    returns a report without a run-time panic. *)
Theorem C9_first_workflow_in_bounds :
  exists report0,
    reportAnalyses h uiURL (reportDetail isPrintWide h) = Some report0
    /\ (List.length (VCSInsight.Datas report0) <= 5)%nat
    /\ ((7 <= List.length (HookRepositoryEvent.WorkflowHooks h)
              + List.length (VCSInsight.Datas report0))%nat ->
        exists w, index (HookRepositoryEvent.WorkflowHooks h) 0 = Some w)
    /\ exists report,
         reportWorkflows success h uiURL report0 = Some report
         /\ ToInsightReport isPrintWide success h uiURL = Some report.
Proof.
  destruct reportAnalyses_reportDetail as [report0 [H0 [Hd [_ Hrun]]]].
  exists report0. split; [exact H0 |].
  assert (Hlen : (List.length (VCSInsight.Datas report0) <= 5)%nat).
  { rewrite Hd. apply analysisItems_length. }
  split; [exact Hlen |]. split.
  - intros Hge. destruct (HookRepositoryEvent.WorkflowHooks h) as [| w l].
    + simpl in Hge. lia.
    + exists w. reflexivity.
  - rewrite Hrun, (reportWorkflows_spec success h uiURL report0 Hlen).
    eexists. split; reflexivity.
Qed.

(** C4: with at most five analyses the report has one LINK item per
    analysis, titled "Analysis on <project>" and linking to the
    repository settings of that project; with six analyses or more it has
    one such item, built from the first analysis.  The items of the
    workflows follow them. *)
Theorem C4_analysis_items :
  let item (a : HookRepositoryEventAnalysis.t) :=
    {| VCSInsightData.Title := "Analysis on " ++ HookRepositoryEventAnalysis.ProjectKey a;
       VCSInsightData.Type_ := "LINK";
       VCSInsightData.Text := HookRepositoryEventAnalysis.Status a;
       VCSInsightData.Href :=
         uiURL ++ "/project/" ++ HookRepositoryEventAnalysis.ProjectKey a
               ++ "/explore/vcs/" ++ HookRepositoryEvent.VCSServerName h
               ++ "/repository/" ++ url.PathEscape (HookRepositoryEvent.RepositoryName h)
               ++ "/settings" |} in
  exists report items,
    ToInsightReport isPrintWide success h uiURL = Some report
    /\ VCSInsight.Datas report =
         (items ++ workflowItems success h uiURL (List.length items))%list
    /\ ((List.length (HookRepositoryEvent.Analyses h) <= 5)%nat ->
        items = map item (HookRepositoryEvent.Analyses h))
    /\ ((6 <= List.length (HookRepositoryEvent.Analyses h))%nat ->
        exists a, index (HookRepositoryEvent.Analyses h) 0 = Some a /\ items = [item a]).
Proof.
  intros item. rewrite ToInsightReport_spec.
  eexists. exists (analysisItems h uiURL). split; [reflexivity |].
  split; [reflexivity |]. unfold analysisItems.
  destruct (Nat.leb_spec (List.length (HookRepositoryEvent.Analyses h)) 5) as [Hle | Hgt].
  - split; [reflexivity | lia].
  - split; [lia |]. intros _.
    destruct (HookRepositoryEvent.Analyses h) as [| a l]; [simpl in Hgt; lia |].
    exists a. split; reflexivity.
Qed.



(** C1: with no analysis, the analysis section produces no item at all:
    its first branch is taken, and its loop runs over no analysis.  The
    branch that writes the TEXT item "0" is never reached; every item of
    the report is a LINK item. *)
Theorem C1_no_analysis_no_text_item :
  HookRepositoryEvent.Analyses h = [] ->
  exists report0 report,
    reportAnalyses h uiURL (reportDetail isPrintWide h) = Some report0
    /\ VCSInsight.Datas report0 = []
    /\ ToInsightReport isPrintWide success h uiURL = Some report
    /\ Forall (fun d => VCSInsightData.Type_ d = "LINK") (VCSInsight.Datas report).
Proof.
  intros Hnil.
  destruct reportAnalyses_reportDetail as [report0 [H0 [Hd [_ Hrun]]]].
  exists report0. rewrite ToInsightReport_spec. eexists.
  split; [exact H0 |]. split.
  - rewrite Hd. unfold analysisItems. now rewrite Hnil.
  - split; [reflexivity |]. cbn [VCSInsight.Datas].
    unfold analysisItems, workflowItems. rewrite Hnil. simpl.
    destruct (List.length (HookRepositoryEvent.WorkflowHooks h) + 0 <? 7)%nat.
    + apply Forall_forall. intros d Hin. apply in_map_iff in Hin.
      destruct Hin as [w [<- _]]. unfold workflowData.
      now destruct (HookRepositoryEventWorkflow.Status w =? success)%string.
    + apply Forall_forall. intros d Hin. apply in_map_iff in Hin.
      destruct Hin as [w [<- _]]. reflexivity.
Qed.

End ReportClaims.

(** ** The derivation of [pbkdf2.Key] is PBKDF2 over HMAC *)

Lemma xorBytes_length (x y : list Z) :
  List.length y = List.length x -> List.length (xorBytes x y) = List.length x.
Proof.
  intros H. unfold xorBytes. rewrite length_map, length_combine. lia.
Qed.

Lemma be_bytes_length (n : nat) (x : Z) : List.length (sha512.be_bytes n x) = n.
Proof.
  revert x. induction n as [| n IH]; intros x; simpl; [reflexivity |].
  rewrite length_app, IH. simpl. lia.
Qed.

Lemma skipn_repeat_zero (k n : nat) : skipn k (repeat 0 n) = repeat 0 (n - k).
Proof.
  revert n. induction k as [| k IH]; intros n.
  - now rewrite Nat.sub_0_r.
  - destruct n; simpl; [reflexivity | apply IH].
Qed.

(** The four bytes the code writes after the salt are [INT(block)]. *)
Lemma block_index_bytes (block : Z) :
  [Z.shiftr block 24 mod 256; Z.shiftr block 16 mod 256;
   Z.shiftr block 8 mod 256; block mod 256] = Reference.INT block.
Proof.
  unfold Reference.INT. cbn [sha512.be_bytes app].
  rewrite !Z.shiftr_div_pow2 by lia.
  rewrite !Z.div_div by lia.
  reflexivity.
Qed.

Section KeyRefinement.

Variable H : hash.Hash.
Hypothesis Hsize : 0 < hash.Size H.
Hypothesis Hblock : hash.Size H <= hash.BlockSize H.
Hypothesis Hdigest : forall x, Z.of_nat (List.length (hash.digest H x)) = hash.Size H.

Variable password : list Z.

Let hashLen : nat := Z.to_nat (hash.Size H).
Let prf0 : hmac.t := hmac.New H password.

Local Abbreviation sameKey := (keyedBy H password).

Lemma copy_key (key : list Z) :
  (List.length key <= Z.to_nat (hash.BlockSize H))%nat ->
  hmac.copy (repeat 0 (Z.to_nat (hash.BlockSize H))) key =
    (key ++ repeat 0 (Z.to_nat (hash.BlockSize H) - List.length key))%list.
Proof.
  intros Hle. unfold hmac.copy. rewrite repeat_length.
  rewrite firstn_all2 by exact Hle. f_equal.
  apply skipn_repeat_zero.
Qed.

Lemma hmac_Sum_Reference (prf : hmac.t) (msg in_ : list Z) :
  sameKey prf ->
  hmac.Sum (hmac.Write (hmac.Reset prf) msg) in_ =
    (in_ ++ Reference.HMAC H password msg)%list.
Proof.
  intros [Hh [Hi Ho]].
  unfold hmac.Sum, hmac.Write, hmac.Reset. cbn [hmac.h hmac.ipad hmac.opad hmac.inner app].
  rewrite Hh, Hi, Ho. f_equal.
  unfold prf0, hmac.New, Reference.HMAC. cbn [hmac.ipad hmac.opad].
  destruct (Z.ltb_spec (hash.BlockSize H) (Z.of_nat (List.length password))) as [Hlong | Hshort].
  - destruct (Nat.ltb_spec (Z.to_nat (hash.BlockSize H)) (List.length password)); [| lia].
    rewrite copy_key by (pose proof (Hdigest password); lia).
    reflexivity.
  - destruct (Nat.ltb_spec (Z.to_nat (hash.BlockSize H)) (List.length password)); [lia |].
    rewrite copy_key by lia.
    reflexivity.
Qed.

Lemma sameKey_Write_Reset (prf : hmac.t) (msg : list Z) :
  sameKey prf -> sameKey (hmac.Write (hmac.Reset prf) msg).
Proof. intros Hk. exact Hk. Qed.

Lemma HMAC_length (msg : list Z) :
  List.length (Reference.HMAC H password msg) = hashLen.
Proof.
  unfold Reference.HMAC, hashLen. cbv zeta.
  rewrite <- (Hdigest
    (map (fun b => Z.lxor b 92)
         ((if (Z.to_nat (hash.BlockSize H) <? List.length password)%nat
           then hash.digest H password else password)
          ++ repeat 0 (Z.to_nat (hash.BlockSize H)
                       - List.length (if (Z.to_nat (hash.BlockSize H) <? List.length password)%nat
                                      then hash.digest H password else password)))
     ++ hash.digest H
          (map (fun b => Z.lxor b 54)
               ((if (Z.to_nat (hash.BlockSize H) <? List.length password)%nat
                 then hash.digest H password else password)
                ++ repeat 0 (Z.to_nat (hash.BlockSize H)
                             - List.length (if (Z.to_nat (hash.BlockSize H) <? List.length password)%nat
                                            then hash.digest H password else password)))
           ++ msg))%list).
  now rewrite Nat2Z.id.
Qed.

Variable salt : list Z.

Local Abbreviation U_ := (Reference.U_ (Reference.HMAC H) password salt).
Local Abbreviation F := (Reference.F (Reference.HMAC H) password salt).

Lemma U_length (i : Z) (j : nat) : List.length (U_ i j) = hashLen.
Proof. destruct j; simpl; apply HMAC_length. Qed.

(** The inner loop: after [count] more iterations from [U_(j+1)], the last
    block of [dk] has been xored with [U_(j+2)], ..., [U_(j+1+count)]. *)
Lemma iterations_spec (i : Z) (count : nat) :
  forall (j : nat) (prf : hmac.t) (dk0 T : list Z),
    sameKey prf ->
    List.length T = hashLen ->
    exists prf',
      sameKey prf'
      /\ pbkdf2.iterations count hashLen
           {| pbkdf2.prf := prf; pbkdf2.dk := (dk0 ++ T)%list; pbkdf2.U := U_ i j |} =
         {| pbkdf2.prf := prf';
            pbkdf2.dk := (dk0 ++ fold_left xorBytes (map (U_ i) (seq (S j) count)) T)%list;
            pbkdf2.U := U_ i (j + count) |}.
Proof.
  induction count as [| count IH]; intros j prf dk0 T Hk HT.
  - exists prf. split; [exact Hk |]. simpl. now rewrite Nat.add_0_r.
  - cbn [pbkdf2.iterations]. unfold pbkdf2.iteration at 1.
    cbn [pbkdf2.prf pbkdf2.dk pbkdf2.U].
    rewrite (hmac_Sum_Reference prf (U_ i j) [] Hk). cbn [app].
    change (Reference.HMAC H password (U_ i j)) with (U_ i (S j)).
    assert (Hx : pbkdf2.xorIntoLast hashLen (dk0 ++ T) (U_ i (S j)) =
                 (dk0 ++ xorBytes T (U_ i (S j)))%list).
    { unfold pbkdf2.xorIntoLast. rewrite length_app, HT.
      replace (List.length dk0 + hashLen - hashLen)%nat with (List.length dk0) by lia.
      rewrite firstn_app, Nat.sub_diag, firstn_O, app_nil_r, firstn_all.
      rewrite skipn_app, Nat.sub_diag, skipn_all. reflexivity. }
    rewrite Hx.
    destruct (IH (S j) (hmac.Write (hmac.Reset prf) (U_ i j)) dk0
                (xorBytes T (U_ i (S j))) (sameKey_Write_Reset prf _ Hk))
      as [prf' [Hk' Heq]].
    { rewrite xorBytes_length; [exact HT | now rewrite U_length]. }
    exists prf'. split; [exact Hk' |]. rewrite Heq. cbn [seq map fold_left].
    now rewrite Nat.add_succ_r.
Qed.

Lemma fold_xorBytes_length (l : list (list Z)) :
  forall T,
    List.length T = hashLen ->
    Forall (fun u => List.length u = hashLen) l ->
    List.length (fold_left xorBytes l T) = hashLen.
Proof.
  induction l as [| u l IH]; intros T HT Hl; [exact HT |].
  inversion Hl; subst. simpl. apply IH; [| assumption].
  rewrite xorBytes_length; [exact HT | congruence].
Qed.

Lemma F_length (c : nat) (i : Z) : List.length (F c i) = hashLen.
Proof.
  unfold Reference.F. apply fold_xorBytes_length; [apply U_length |].
  apply Forall_forall. intros u Hin. apply in_map_iff in Hin.
  destruct Hin as [j [<- _]]. apply U_length.
Qed.

(** One block: the code appends [T_block] to [dk]. *)
Lemma blockStep_spec (iter block : Z) (s : pbkdf2.state) :
  sameKey (pbkdf2.prf s) ->
  List.length (pbkdf2.U s) = hashLen ->
  exists s',
    pbkdf2.blockStep salt iter hashLen block s = s'
    /\ sameKey (pbkdf2.prf s')
    /\ List.length (pbkdf2.U s') = hashLen
    /\ pbkdf2.dk s' = (pbkdf2.dk s ++ F (Z.to_nat iter) block)%list.
Proof.
  intros Hk HU. unfold pbkdf2.blockStep.
  rewrite block_index_bytes.
  assert (Hw : hmac.Write (hmac.Write (hmac.Reset (pbkdf2.prf s)) salt) (Reference.INT block)
               = hmac.Write (hmac.Reset (pbkdf2.prf s)) (salt ++ Reference.INT block)).
  { reflexivity. }
  rewrite Hw.
  rewrite (hmac_Sum_Reference (pbkdf2.prf s) _ (pbkdf2.dk s) Hk).
  change (Reference.HMAC H password (salt ++ Reference.INT block)) with (U_ block 0).
  assert (HT : skipn (List.length (pbkdf2.dk s ++ U_ block 0) - hashLen)
                     (pbkdf2.dk s ++ U_ block 0) = U_ block 0).
  { rewrite length_app, U_length.
    replace (List.length (pbkdf2.dk s) + hashLen - hashLen)%nat
      with (List.length (pbkdf2.dk s)) by lia.
    rewrite skipn_app, Nat.sub_diag, skipn_all. reflexivity. }
  rewrite HT.
  assert (HU' : hmac.copy (pbkdf2.U s) (U_ block 0) = U_ block 0).
  { unfold hmac.copy. rewrite HU, U_length.
    rewrite firstn_all2 by (rewrite U_length; lia).
    rewrite skipn_all2 by lia. apply app_nil_r. }
  rewrite HU'.
  destruct (iterations_spec block (Z.to_nat (iter - 1)) 0
              (hmac.Write (hmac.Reset (pbkdf2.prf s)) (salt ++ Reference.INT block))
              (pbkdf2.dk s) (U_ block 0)
              (sameKey_Write_Reset _ _ Hk) (U_length block 0))
    as [prf' [Hk' Heq]].
  eexists. split; [reflexivity |]. rewrite Heq.
  cbn [pbkdf2.prf pbkdf2.dk pbkdf2.U].
  split; [exact Hk' |]. split; [apply U_length |].
  unfold Reference.F. rewrite Z2Nat.inj_sub by lia.
  reflexivity.
Qed.

Lemma blockLoop_spec (iter : Z) (count : nat) :
  forall (block : Z) (s : pbkdf2.state),
    sameKey (pbkdf2.prf s) ->
    List.length (pbkdf2.U s) = hashLen ->
    pbkdf2.dk (pbkdf2.blockLoop count salt iter hashLen block s) =
      (pbkdf2.dk s
         ++ List.concat (map (fun j => F (Z.to_nat iter) (block + Z.of_nat j))
                             (seq 0 count)))%list.
Proof.
  induction count as [| count IH]; intros block s Hk HU.
  - simpl. now rewrite app_nil_r.
  - cbn [pbkdf2.blockLoop].
    destruct (blockStep_spec iter block s Hk HU) as [s' [Hs [Hk' [HU' Hdk]]]].
    rewrite Hs, (IH (block + 1) s' Hk' HU'), Hdk, <- app_assoc.
    f_equal. cbn [seq map List.concat]. rewrite Z.add_0_r. f_equal.
    rewrite <- seq_shift, map_map. f_equal. apply map_ext.
    intros j. f_equal. lia.
Qed.

(** [pbkdf2.Key] computes PBKDF2 with HMAC over [H] as its function. *)
Lemma Key_Reference (iter keyLen : Z) :
  0 <= keyLen ->
  pbkdf2.Key password salt iter keyLen H =
    Reference.PBKDF2 (Reference.HMAC H) password salt (hash.Size H) iter keyLen.
Proof.
  intros HkeyLen. unfold pbkdf2.Key, Reference.PBKDF2, hmac.Size.
  change (hmac.h (hmac.New H password)) with H.
  fold hashLen. f_equal.
  rewrite blockLoop_spec.
  - cbn [pbkdf2.dk app].
    rewrite Z.quot_div_nonneg by lia.
    rewrite <- seq_shift, map_map. f_equal. apply map_ext.
    intros j. f_equal. lia.
  - cbn [pbkdf2.prf]. repeat split.
  - cbn [pbkdf2.U]. apply repeat_length.
Qed.

End KeyRefinement.

(** ** The two secrets *)

Lemma Sum512_length (x : list Z) : Z.of_nat (List.length (sha512.Sum512 x)) = 64.
Proof.
  unfold sha512.Sum512. cbv zeta.
  generalize (sha512.blocks
                (Nat.div (List.length (x ++ sha512.padding (Z.of_nat (List.length x)))) 128)
                sha512.init_regs (x ++ sha512.padding (Z.of_nat (List.length x)))).
  intros s. cbn [flat_map]. rewrite !length_app, !be_bytes_length. reflexivity.
Qed.

Lemma Key_sha512_Reference (password salt : list Z) (iter keyLen : Z) :
  0 <= keyLen ->
  pbkdf2.Key password salt iter keyLen sha512.New =
    Reference.PBKDF2 (Reference.HMAC sha512.New) password salt 64 iter keyLen.
Proof.
  intros Hk.
  apply (Key_Reference sha512.New); [reflexivity | discriminate | exact Sum512_length | exact Hk].
Qed.


(** ** Examples *)

(** The models of the library functions, on the vectors of FIPS 180-4,
    RFC 4231, RFC 4648 and on PBKDF2-HMAC-SHA-512 with few iterations. *)
Example sha512_abc :
  hexString (sha512.Sum512 (bytes_of_string "abc")) =
    "ddaf35a193617abacc417349ae20413112e6fa4e89a97ea20a9eeee64b55d39a"
    ++ "2192992a274fc1a836ba3c23a3feebbd454d4423643ce80e2a9ac94fa54ca49f".
Proof. vm_compute. reflexivity. Qed.

Example sha512_empty :
  hexString (sha512.Sum512 []) =
    "cf83e1357eefb8bdf1542850d66d8007d620e4050b5715dc83f4a921d36ce9ce"
    ++ "47d0d13c5d85f2b0ff8318d2877eec2f63b931bd47417a81a538327af927da3e".
Proof. vm_compute. reflexivity. Qed.

Example hmac_sha512_rfc4231_2 :
  hexString
    (hmac.Sum
       (hmac.Write (hmac.New sha512.New (bytes_of_string "Jefe"))
                   (bytes_of_string "what do ya want for nothing?")) []) =
    "164b7a7bfcf819e2e395fbe73b56e0a387bd64222e831fd610270cd7ea250554"
    ++ "9758bf75c05a994a6d034f65f8f0e6fdcaeab1a34d4a6b4b636e070a38bce737".
Proof. vm_compute. reflexivity. Qed.

Example pbkdf2_sha512_one_iteration :
  hexString
    (pbkdf2.Key (bytes_of_string "password") (bytes_of_string "salt") 1 64 sha512.New) =
    "867f70cf1ade02cff3752599a3a53dc4af34c7a669815ae5d513554e1c8cf252"
    ++ "c02d470a285a0501bad999bfe943c08f050235d7d68b1da55e63f73b60a57fce".
Proof. vm_compute. reflexivity. Qed.

Example pbkdf2_sha512_two_iterations :
  hexString
    (pbkdf2.Key (bytes_of_string "password") (bytes_of_string "salt") 2 64 sha512.New) =
    "e1d9c16aa681708a45f5c7c4e215ceb66e011a2e9f0040713f18aefdb866d53c"
    ++ "f76cab2868a39b9f7840edce4fef5a82be67335c77a6068e04112754f27ccf4e".
Proof. vm_compute. reflexivity. Qed.

Example pbkdf2_reference_two_blocks :
  Reference.PBKDF2 (Reference.HMAC sha512.New)
    (bytes_of_string "password") (bytes_of_string "salt") 64 3 128 =
  pbkdf2.Key (bytes_of_string "password") (bytes_of_string "salt") 3 128 sha512.New.
Proof. vm_compute. reflexivity. Qed.

Example base64_rfc4648 :
  map (fun s => base64.EncodeToString (bytes_of_string s))
      ["f"; "fo"; "foo"; "foob"; "fooba"; "foobar"] =
    ["Zg=="; "Zm8="; "Zm9v"; "Zm9vYg=="; "Zm9vYmE="; "Zm9vYmFy"].
Proof. vm_compute. reflexivity. Qed.

Example Itoa_examples :
  map strconv.Itoa [0; 7; 10; 99; 100; 12345; -1; -9223372036854775808] =
    ["0"; "7"; "10"; "99"; "100"; "12345"; "-1"; "-9223372036854775808"].
Proof. vm_compute. reflexivity. Qed.

Example PathEscape_example :
  url.PathEscape "org/my repo;v=1,x?y&z~" = "org%2Fmy%20repo%3Bv=1%2Cx%3Fy&z~".
Proof. vm_compute. reflexivity. Qed.

(** [%q] escapes the double quote, the backslash and what is not
    printable: here the letter a, a double quote, the letter b, a
    backslash, a line feed and the byte [0xff]. *)
Example Quote_example :
  strconv_Quote noWideRune (string_of_bytes [97; 34; 98; 92; 10; 255]) =
    dquote ++ "a\" ++ dquote ++ "b\\\n\xff" ++ dquote.
Proof. vm_compute. reflexivity. Qed.

(** The scenarios of the specification. *)
Example report_five_analyses :
  option_map (fun r => map VCSInsightData.Type_ (VCSInsight.Datas r))
    (ToInsightReport noWideRune statusSuccess (eventOf "push" "Done" fiveAnalyses [])
       "https://ui") =
    Some ["LINK"; "LINK"; "LINK"; "LINK"; "LINK"].
Proof. vm_compute. reflexivity. Qed.

Example report_six_analyses :
  option_map (fun r => map VCSInsightData.Title (VCSInsight.Datas r))
    (ToInsightReport noWideRune statusSuccess
       (eventOf "push" "Done" (fiveAnalyses ++ [analysisOf "P6" EmptyString]) [])
       "https://ui") =
    Some ["Analysis on P1"].
Proof. vm_compute. reflexivity. Qed.

Example report_two_analyses_three_workflows :
  option_map (fun r => (VCSInsight.Detail r, map VCSInsightData.Title (VCSInsight.Datas r)))
    (ToInsightReport noWideRune statusSuccess
       (eventOf "push" "Done" (firstn 2 fiveAnalyses)
          [workflowOf "build" 12; workflowOf "test" 7; workflowOf "deploy" 3])
       "https://ui") =
    Some ("Event " ++ dquote ++ "push" ++ dquote ++ " (uuid-1): Done",
          ["Analysis on P1"; "Analysis on P2"; "build #12"; "test #7"; "deploy #3"]).
Proof. vm_compute. reflexivity. Qed.

Example report_many_workflows :
  option_map (fun r => map (fun d => (VCSInsightData.Text d, VCSInsightData.Href d))
                           (skipn 2 (VCSInsight.Datas r)))
    (ToInsightReport noWideRune statusSuccess
       (eventOf "push" "Done" (firstn 2 fiveAnalyses)
          (map (workflowOf "build") [1; 2; 3; 4; 5]))
       "https://ui") =
    Some [("5",
           "https://ui/project/PK/run?workflow_ref=refs%2Fheads%2Fmain"
             ++ "&repository=github%2Forg%2Frepo")].
Proof. vm_compute. reflexivity. Qed.

(** An event with no analysis and no workflow: the report has no item,
    where the third branch of the analysis section would have written one
    TEXT item with the text "0". *)
Example report_no_analysis :
  ToInsightReport noWideRune statusSuccess (eventOf "push" "Done" [] []) "https://ui" =
    Some {| VCSInsight.Title := "CDS";
            VCSInsight.Detail := "Event " ++ dquote ++ "push" ++ dquote ++ " (uuid-1): Done";
            VCSInsight.Datas := [] |}.
Proof. vm_compute. reflexivity. Qed.

Lemma C1_no_analysis_witness :
  HookRepositoryEvent.Analyses (eventOf "push" "Done" [] []) = []
  /\ exists report0 report,
       reportAnalyses (eventOf "push" "Done" [] []) "https://ui"
         (reportDetail noWideRune (eventOf "push" "Done" [] [])) = Some report0
       /\ VCSInsight.Datas report0 = []
       /\ ToInsightReport noWideRune statusSuccess (eventOf "push" "Done" [] [])
            "https://ui" = Some report
       /\ Forall (fun d => VCSInsightData.Type_ d = "LINK") (VCSInsight.Datas report).
Proof.
  split; [reflexivity |].
  apply (C1_no_analysis_no_text_item noWideRune statusSuccess
           (eventOf "push" "Done" [] []) "https://ui").
  reflexivity.
Defined.

(** ** Full names *)

Lemma contains_append (c : ascii) (s t : string) :
  contains c (s ++ t) = contains c s || contains c t.
Proof.
  induction s as [| x s IH]; simpl; [reflexivity |].
  now rewrite IH, orb_assoc.
Qed.

(** A string is cut at the first occurrence of a character in one way. *)
Lemma split_first (c : ascii) (s1 : string) :
  forall s2 t1 t2,
    contains c s1 = false -> contains c s2 = false ->
    s1 ++ String c t1 = s2 ++ String c t2 ->
    s1 = s2 /\ t1 = t2.
Proof.
  induction s1 as [| x s1 IH]; intros [| y s2] t1 t2 H1 H2 E; simpl in *.
  - injection E as E. auto.
  - injection E as Ec E. subst y. rewrite Ascii.eqb_refl in H2. discriminate.
  - injection E as Ec E. subst x. rewrite Ascii.eqb_refl in H1. discriminate.
  - injection E as Ex E. subst y.
    apply orb_false_iff in H1, H2.
    destruct (IH s2 t1 t2 (proj2 H1) (proj2 H2) E) as [-> ->]. auto.
Qed.

(** A string is cut at the last occurrence of a character in one way. *)
Lemma split_last (c : ascii) (s1 : string) :
  forall s2 t1 t2,
    contains c t1 = false -> contains c t2 = false ->
    s1 ++ String c t1 = s2 ++ String c t2 ->
    s1 = s2 /\ t1 = t2.
Proof.
  induction s1 as [| x s1 IH]; intros [| y s2] t1 t2 H1 H2 E; simpl in *.
  - injection E as E. auto.
  - injection E as Ec E. subst t1.
    rewrite contains_append in H1. simpl in H1.
    rewrite Ascii.eqb_refl, orb_true_r in H1. discriminate.
  - injection E as Ec E. subst t2.
    rewrite contains_append in H2. simpl in H2.
    rewrite Ascii.eqb_refl, orb_true_r in H2. discriminate.
  - injection E as Ex E. subst y.
    destruct (IH s2 t1 t2 H1 H2 E) as [-> ->]. auto.
Qed.

(** X1: the full name of a repository event determines its server name,
    repository name and UUID, when the server names and the UUIDs hold no
    slash (the repository names may). *)
Theorem GetFullName_injective (h1 h2 : HookRepositoryEvent.t) :
  contains slash (HookRepositoryEvent.VCSServerName h1) = false ->
  contains slash (HookRepositoryEvent.VCSServerName h2) = false ->
  contains slash (HookRepositoryEvent.UUID h1) = false ->
  contains slash (HookRepositoryEvent.UUID h2) = false ->
  HookRepositoryEvent.GetFullName h1 = HookRepositoryEvent.GetFullName h2 ->
  HookRepositoryEvent.VCSServerName h1 = HookRepositoryEvent.VCSServerName h2
  /\ HookRepositoryEvent.RepositoryName h1 = HookRepositoryEvent.RepositoryName h2
  /\ HookRepositoryEvent.UUID h1 = HookRepositoryEvent.UUID h2.
Proof.
  intros Hv1 Hv2 Hu1 Hu2 E. unfold HookRepositoryEvent.GetFullName in E.
  apply (split_first slash) in E; [| assumption | assumption].
  destruct E as [Ev E]. split; [exact Ev |].
  apply (split_last slash) in E; [| assumption | assumption].
  exact E.
Qed.

Lemma GetFullName_injective_witness :
  HookRepositoryEvent.GetFullName (eventOf "push" "Done" [] []) = "github/org/repo/uuid-1"
  /\ HookRepositoryEvent.RepositoryName (eventOf "push" "Done" [] [])
       = HookRepositoryEvent.RepositoryName (eventOf "manual" "Error" fiveAnalyses []).
Proof.
  split; [reflexivity |].
  apply (GetFullName_injective (eventOf "push" "Done" [] [])
           (eventOf "manual" "Error" fiveAnalyses []));
    reflexivity.
Defined.

(** X2: a slash in the server name is not told from a slash in the
    repository name: moving the part of the server name after a slash to
    the front of the repository name gives the same full name. *)
Theorem GetFullName_slash_moves (vcs part repo : string) (h : HookRepositoryEvent.t) :
  HookRepositoryEvent.GetFullName
    (HookRepositoryEvent.mk (HookRepositoryEvent.UUID h) (HookRepositoryEvent.EventName h)
       (HookRepositoryEvent.EventType h) (vcs ++ "/" ++ part) repo
       (HookRepositoryEvent.Status h) (HookRepositoryEvent.LastError h)
       (HookRepositoryEvent.NbErrors h) (HookRepositoryEvent.Analyses h)
       (HookRepositoryEvent.WorkflowHooks h)) =
  HookRepositoryEvent.GetFullName
    (HookRepositoryEvent.mk (HookRepositoryEvent.UUID h) (HookRepositoryEvent.EventName h)
       (HookRepositoryEvent.EventType h) vcs (part ++ "/" ++ repo)
       (HookRepositoryEvent.Status h) (HookRepositoryEvent.LastError h)
       (HookRepositoryEvent.NbErrors h) (HookRepositoryEvent.Analyses h)
       (HookRepositoryEvent.WorkflowHooks h)).
Proof.
  unfold HookRepositoryEvent.GetFullName. cbn [HookRepositoryEvent.VCSServerName
    HookRepositoryEvent.RepositoryName HookRepositoryEvent.UUID].
  now rewrite !append_assoc.
Qed.

(** X3: the full name of an outgoing workflow-run event determines its
    five parts, when the project, the server, the workflow name and the
    UUID hold no slash (the repository may). *)
Theorem OutgoingEvent_GetFullName_injective (h1 h2 : HookWorkflowRunOutgoingEvent.t) :
  let project h := HookWorkflowRunEvent.WorkflowProject (HookWorkflowRunOutgoingEvent.Event h) in
  let server h := HookWorkflowRunEvent.WorkflowVCSServer (HookWorkflowRunOutgoingEvent.Event h) in
  let repository h :=
    HookWorkflowRunEvent.WorkflowRepository (HookWorkflowRunOutgoingEvent.Event h) in
  let name h := HookWorkflowRunEvent.WorkflowName (HookWorkflowRunOutgoingEvent.Event h) in
  contains slash (project h1) = false -> contains slash (project h2) = false ->
  contains slash (server h1) = false -> contains slash (server h2) = false ->
  contains slash (name h1) = false -> contains slash (name h2) = false ->
  contains slash (HookWorkflowRunOutgoingEvent.UUID h1) = false ->
  contains slash (HookWorkflowRunOutgoingEvent.UUID h2) = false ->
  HookWorkflowRunOutgoingEvent.GetFullName h1 = HookWorkflowRunOutgoingEvent.GetFullName h2 ->
  project h1 = project h2 /\ server h1 = server h2 /\ repository h1 = repository h2
  /\ name h1 = name h2
  /\ HookWorkflowRunOutgoingEvent.UUID h1 = HookWorkflowRunOutgoingEvent.UUID h2.
Proof.
  intros project server repository name Hp1 Hp2 Hs1 Hs2 Hn1 Hn2 Hu1 Hu2 E.
  unfold HookWorkflowRunOutgoingEvent.GetFullName in E.
  fold (project h1) (project h2) (server h1) (server h2) (repository h1) (repository h2)
    (name h1) (name h2) in E.
  apply (split_first slash) in E; [| assumption | assumption].
  destruct E as [Ep E]. split; [exact Ep |].
  apply (split_first slash) in E; [| assumption | assumption].
  destruct E as [Es E]. split; [exact Es |].
  change (repository h1 ++ "/" ++ name h1 ++ "/" ++ HookWorkflowRunOutgoingEvent.UUID h1)
    with (repository h1 ++ String slash (name h1 ++ String slash (HookWorkflowRunOutgoingEvent.UUID h1))) in E.
  change (repository h2 ++ "/" ++ name h2 ++ "/" ++ HookWorkflowRunOutgoingEvent.UUID h2)
    with (repository h2 ++ String slash (name h2 ++ String slash (HookWorkflowRunOutgoingEvent.UUID h2))) in E.
  assert (E' : (repository h1 ++ String slash (name h1)) ++ String slash (HookWorkflowRunOutgoingEvent.UUID h1)
               = (repository h2 ++ String slash (name h2)) ++ String slash (HookWorkflowRunOutgoingEvent.UUID h2)).
  { rewrite !append_assoc. exact E. }
  apply (split_last slash) in E'; [| assumption | assumption].
  destruct E' as [E' Eu].
  apply (split_last slash) in E'; [| assumption | assumption].
  destruct E' as [Er En]. auto.
Qed.

Lemma OutgoingEvent_GetFullName_witness :
  HookWorkflowRunOutgoingEvent.GetFullName (outgoingOf "org/repo" "u-1")
    = "PK/github/org/repo/build/u-1"
  /\ HookWorkflowRunEvent.WorkflowRepository
       (HookWorkflowRunOutgoingEvent.Event (outgoingOf "org/repo" "u-1")) = "org/repo".
Proof.
  split; [reflexivity |].
  apply (OutgoingEvent_GetFullName_injective
           (outgoingOf "org/repo" "u-1") (outgoingOf "org/repo" "u-1"));
    reflexivity.
Defined.

(** ** The report: further properties *)

Lemma prefix_append (s t : string) : String.prefix s (s ++ t) = true.
Proof.
  induction s as [| c s IH]; simpl.
  - now destruct t.
  - destruct (ascii_dec c c) as [_ | Hne]; [exact IH | now elim Hne].
Qed.

Lemma append_eq_self (s t : string) : s ++ t = s -> t = EmptyString.
Proof.
  induction s as [| c s IH]; simpl; intros E; [exact E |].
  injection E as E. exact (IH E).
Qed.

Lemma errorLines_empty (l : list HookRepositoryEventAnalysis.t) :
  errorLines l = EmptyString <->
    Forall (fun a => HookRepositoryEventAnalysis.Error a = EmptyString) l.
Proof.
  induction l as [| a l IH].
  - split; [constructor | reflexivity].
  - rewrite errorLines_cons. unfold hasError.
    destruct (String.eqb_spec (HookRepositoryEventAnalysis.Error a) EmptyString) as [E | E];
      cbn [negb].
    + rewrite IH. split.
      * intros Hl. constructor; assumption.
      * intros Hl. now inversion Hl.
    + split.
      * unfold errorLine, LF. simpl. discriminate.
      * intros Hl. inversion Hl. contradiction.
Qed.

Section ReportExtras.

Variable isPrintWide : Z -> bool.
Variable success : string.
Variable h : HookRepositoryEvent.t.
Variable uiURL : string.

(** X4: the number of items of the report: the analyses count for
    themselves up to five and for one item from six on; the workflows
    count for themselves while there are fewer than seven items in all,
    and for one item otherwise. *)
Theorem report_item_count :
  let a := List.length (HookRepositoryEvent.Analyses h) in
  let n := List.length (HookRepositoryEvent.WorkflowHooks h) in
  let m := if (a <=? 5)%nat then a else 1%nat in
  exists report,
    ToInsightReport isPrintWide success h uiURL = Some report
    /\ List.length (VCSInsight.Datas report) =
         (m + (if (n + m <? 7)%nat then n else 1))%nat.
Proof.
  intros a n m. rewrite ToInsightReport_spec. eexists. split; [reflexivity |].
  cbn [VCSInsight.Datas]. rewrite length_app.
  assert (Hm : List.length (analysisItems h uiURL) = m).
  { unfold analysisItems, m, a.
    destruct (Nat.leb_spec (List.length (HookRepositoryEvent.Analyses h)) 5).
    - apply length_map.
    - rewrite length_map, length_firstn. lia. }
  rewrite Hm. f_equal. unfold workflowItems. fold n.
  destruct (Nat.ltb_spec (n + m) 7).
  - apply length_map.
  - rewrite length_map, length_firstn. fold n.
    assert (m <= 5)%nat by (rewrite <- Hm; apply analysisItems_length). lia.
Qed.

(** X5: the report has no item if and only if the event has neither an
    analysis nor a workflow. *)
Theorem report_empty_iff :
  exists report,
    ToInsightReport isPrintWide success h uiURL = Some report
    /\ (VCSInsight.Datas report = [] <->
          HookRepositoryEvent.Analyses h = [] /\ HookRepositoryEvent.WorkflowHooks h = []).
Proof.
  rewrite ToInsightReport_spec. eexists. split; [reflexivity |].
  cbn [VCSInsight.Datas]. unfold analysisItems, workflowItems.
  destruct (HookRepositoryEvent.Analyses h) as [| a l];
    destruct (HookRepositoryEvent.WorkflowHooks h) as [| w ws].
  - simpl. tauto.
  - cbn [List.length Nat.leb map app]. split; [| intros [_ E]; discriminate].
    destruct (_ <? _)%nat; discriminate.
  - split; [| intros [E _]; discriminate].
    destruct (_ <=? _)%nat; discriminate.
  - split; [| intros [E _]; discriminate].
    destruct (_ <=? _)%nat; discriminate.
Qed.

(** X6: every item of the report is a LINK item, whatever the event: the
    report never holds a TEXT item. *)
Theorem report_items_are_links :
  exists report,
    ToInsightReport isPrintWide success h uiURL = Some report
    /\ Forall (fun d => VCSInsightData.Type_ d = "LINK") (VCSInsight.Datas report).
Proof.
  rewrite ToInsightReport_spec. eexists. split; [reflexivity |].
  cbn [VCSInsight.Datas]. apply Forall_app. split.
  - unfold analysisItems.
    destruct (_ <=? _)%nat; apply Forall_forall; intros d Hin;
      apply in_map_iff in Hin; destruct Hin as [a [<- _]]; reflexivity.
  - unfold workflowItems.
    destruct (_ <? _)%nat; apply Forall_forall; intros d Hin;
      apply in_map_iff in Hin; destruct Hin as [w [<- _]].
    + unfold workflowData.
      now destruct (HookRepositoryEventWorkflow.Status w =? success)%string.
    + reflexivity.
Qed.

(** X7: while the workflows have their own items, the text of the item
    of a workflow is its status, and its link is the view of its run when
    its status is the status of a successful run, and the settings of the
    repository in its project otherwise. *)
Theorem report_workflow_links :
  let m := List.length (analysisItems h uiURL) in
  exists report,
    ToInsightReport isPrintWide success h uiURL = Some report
    /\ ((List.length (HookRepositoryEvent.WorkflowHooks h) + m < 7)%nat ->
        map (fun d => (VCSInsightData.Text d, VCSInsightData.Href d))
            (skipn m (VCSInsight.Datas report)) =
          map (fun w =>
                 (HookRepositoryEventWorkflow.Status w,
                  if (HookRepositoryEventWorkflow.Status w =? success)%string
                  then uiURL ++ "/project/" ++ HookRepositoryEventWorkflow.ProjectKey w
                         ++ "/run/" ++ HookRepositoryEventWorkflow.RunID w
                  else uiURL ++ "/project/" ++ HookRepositoryEventWorkflow.ProjectKey w
                         ++ "/explore/vcs/" ++ HookRepositoryEvent.VCSServerName h
                         ++ "/repository/"
                         ++ url.PathEscape (HookRepositoryEvent.RepositoryName h)
                         ++ "/settings"))
              (HookRepositoryEvent.WorkflowHooks h)).
Proof.
  intros m. rewrite ToInsightReport_spec. eexists. split; [reflexivity |].
  cbn [VCSInsight.Datas]. intros Hlt. subst m.
  rewrite skipn_app, Nat.sub_diag, skipn_all. cbn [skipn app].
  unfold workflowItems.
  destruct (Nat.ltb_spec (List.length (HookRepositoryEvent.WorkflowHooks h)
                          + List.length (analysisItems h uiURL)) 7); [| lia].
  rewrite map_map. apply map_ext. intros w. unfold workflowData.
  now destruct (HookRepositoryEventWorkflow.Status w =? success)%string.
Qed.

(** X8: the link of every item starts with the URL of the UI followed by
    [/project/]. *)
Theorem report_links_start_with_uiURL :
  exists report,
    ToInsightReport isPrintWide success h uiURL = Some report
    /\ Forall (fun d => String.prefix (uiURL ++ "/project/") (VCSInsightData.Href d) = true)
         (VCSInsight.Datas report).
Proof.
  rewrite ToInsightReport_spec. eexists. split; [reflexivity |].
  cbn [VCSInsight.Datas]. apply Forall_app. split.
  - unfold analysisItems.
    destruct (_ <=? _)%nat; apply Forall_forall; intros d Hin;
      apply in_map_iff in Hin; destruct Hin as [a [<- _]];
      unfold analysisData, settingsHref; cbn [VCSInsightData.Href];
      rewrite <- append_assoc; apply prefix_append.
  - unfold workflowItems.
    destruct (_ <? _)%nat; apply Forall_forall; intros d Hin;
      apply in_map_iff in Hin; destruct Hin as [w [<- _]].
    + unfold workflowData, settingsHref.
      destruct (HookRepositoryEventWorkflow.Status w =? success)%string;
        cbn [VCSInsightData.Href]; rewrite <- append_assoc; apply prefix_append.
    + unfold aggregateData. cbn [VCSInsightData.Href].
      rewrite <- append_assoc. apply prefix_append.
Qed.

(** X9: for a Done event, the detail is the header alone exactly when no
    analysis holds an error. *)
Theorem report_detail_of_done_event :
  HookRepositoryEvent.Status h = "Done" ->
  exists report,
    ToInsightReport isPrintWide success h uiURL = Some report
    /\ (VCSInsight.Detail report = detailHeader isPrintWide h <->
          Forall (fun a => HookRepositoryEventAnalysis.Error a = EmptyString)
            (HookRepositoryEvent.Analyses h)).
Proof.
  intros Hdone. rewrite ToInsightReport_spec. eexists. split; [reflexivity |].
  cbn [VCSInsight.Detail]. rewrite Hdone. cbn [String.eqb Ascii.eqb Bool.eqb].
  change (("Done" =? HookEventStatusDone)%string) with true. cbn iota.
  rewrite <- errorLines_empty. split.
  - apply append_eq_self.
  - intros ->. apply append_nil_r.
Qed.

End ReportExtras.

(** X10: the items of the report depend on the server name, the
    repository name, the analyses and the workflows of the event only,
    and not on the table of printable runes. *)
Theorem report_items_frame (t1 t2 : Z -> bool) (success uiURL : string)
    (h1 h2 : HookRepositoryEvent.t) :
  HookRepositoryEvent.VCSServerName h1 = HookRepositoryEvent.VCSServerName h2 ->
  HookRepositoryEvent.RepositoryName h1 = HookRepositoryEvent.RepositoryName h2 ->
  HookRepositoryEvent.Analyses h1 = HookRepositoryEvent.Analyses h2 ->
  HookRepositoryEvent.WorkflowHooks h1 = HookRepositoryEvent.WorkflowHooks h2 ->
  option_map VCSInsight.Datas (ToInsightReport t1 success h1 uiURL) =
    option_map VCSInsight.Datas (ToInsightReport t2 success h2 uiURL).
Proof.
  intros Hv Hr Ha Hw. rewrite !ToInsightReport_spec. cbn [option_map VCSInsight.Datas].
  unfold analysisItems, workflowItems, analysisData, workflowData, aggregateData, settingsHref.
  now rewrite Hv, Hr, Ha, Hw.
Qed.

(** X11: the detail of the report depends on the name, the UUID, the
    status, the last error and the analyses of the event only: neither on
    the workflows, nor on the URL of the UI, nor on the status that marks
    a successful run. *)
Theorem report_detail_frame (t : Z -> bool) (success1 success2 uiURL1 uiURL2 : string)
    (h1 h2 : HookRepositoryEvent.t) :
  HookRepositoryEvent.EventName h1 = HookRepositoryEvent.EventName h2 ->
  HookRepositoryEvent.UUID h1 = HookRepositoryEvent.UUID h2 ->
  HookRepositoryEvent.Status h1 = HookRepositoryEvent.Status h2 ->
  HookRepositoryEvent.LastError h1 = HookRepositoryEvent.LastError h2 ->
  HookRepositoryEvent.Analyses h1 = HookRepositoryEvent.Analyses h2 ->
  option_map VCSInsight.Detail (ToInsightReport t success1 h1 uiURL1) =
    option_map VCSInsight.Detail (ToInsightReport t success2 h2 uiURL2).
Proof.
  intros Hn Hu Hs Hl Ha. rewrite !ToInsightReport_spec.
  cbn [option_map VCSInsight.Detail]. unfold detailHeader.
  now rewrite Hn, Hu, Hs, Hl, Ha.
Qed.

(** ** The secrets: further properties *)

Lemma concat_blocks_length {A : Type} (f : nat -> list A) (k : nat) (l : list nat) :
  (forall i, List.length (f i) = k) ->
  List.length (List.concat (map f l)) = (List.length l * k)%nat.
Proof.
  intros Hf. induction l as [| i l IH]; simpl; [reflexivity |].
  now rewrite length_app, Hf, IH.
Qed.

(** [pbkdf2.Key] with SHA-512 returns [keyLen] bytes. *)
Lemma Key_sha512_length (password salt : list Z) (iter keyLen : Z) :
  0 <= keyLen ->
  List.length (pbkdf2.Key password salt iter keyLen sha512.New) = Z.to_nat keyLen.
Proof.
  intros Hk. rewrite Key_sha512_Reference by exact Hk.
  unfold Reference.PBKDF2. cbv zeta. rewrite length_firstn.
  rewrite (concat_blocks_length _ 64).
  - rewrite length_seq.
    pose proof (Z.div_mod (keyLen + 64 - 1) 64 ltac:(lia)) as Hd.
    pose proof (Z.mod_pos_bound (keyLen + 64 - 1) 64 ltac:(lia)) as Hm.
    assert (Hq : 0 <= (keyLen + 64 - 1) / 64) by (apply Z.div_pos; lia).
    lia.
  - intros i. rewrite (F_length sha512.New Sum512_length). reflexivity.
Qed.

Lemma land_63_range (x : Z) : 0 <= Z.land x 63 < 64.
Proof.
  change 63 with (Z.ones 6). rewrite Z.land_ones by lia.
  apply Z.mod_pos_bound. lia.
Qed.

Lemma encode_base64Char (i : Z) : 0 <= i < 64 -> base64Char (base64.encode i) = true.
Proof.
  intros Hi. unfold base64.encode.
  assert (Hn : (Z.to_nat i < 64)%nat) by lia.
  generalize dependent (Z.to_nat i). intros n Hn.
  do 64 (destruct n as [| n]; [reflexivity |]). lia.
Qed.

(** Induction on a list of bytes, three bytes at a time. *)
Lemma list_ind3 {A : Type} (P : list A -> Prop) :
  P [] -> (forall a, P [a]) -> (forall a b, P [a; b]) ->
  (forall a b c rest, P rest -> P (a :: b :: c :: rest)) ->
  forall l, P l.
Proof.
  intros H0 H1 H2 H3.
  assert (H : forall n l, (List.length l <= n)%nat -> P l).
  { induction n as [| n IH]; intros l Hl.
    - destruct l; [exact H0 | simpl in Hl; lia].
    - destruct l as [| a [| b [| c rest]]]; auto.
      apply H3. apply IH. simpl in Hl. lia. }
  intros l. exact (H (List.length l) l (Nat.le_refl _)).
Qed.

Lemma EncodeToString_length (src : list Z) :
  String.length (base64.EncodeToString src) = (4 * ((List.length src + 2) / 3))%nat.
Proof.
  induction src as [| a | a b | a b c rest IH] using list_ind3; try reflexivity.
  cbn [base64.EncodeToString String.length List.length]. rewrite IH.
  replace (S (S (S (List.length rest))) + 2)%nat with (List.length rest + 2 + 1 * 3)%nat by lia.
  rewrite Nat.div_add by lia. lia.
Qed.

Lemma EncodeToString_alphabet (src : list Z) :
  stringForall base64Char (base64.EncodeToString src) = true.
Proof.
  induction src as [| a | a b | a b c rest IH] using list_ind3;
    cbn [base64.EncodeToString stringForall]; cbv zeta;
    rewrite ?encode_base64Char by apply land_63_range;
    rewrite ?IH; reflexivity.
Qed.

(** X12: each secret is a string of 172 characters of the standard base64
    alphabet and its padding, whatever the inputs. *)
Theorem secrets_have_172_base64_characters :
  (forall hookSecretKey pkey vcsName repoName uuid : string,
     let secret := GenerateRepositoryWebHookSecret hookSecretKey pkey vcsName repoName uuid in
     String.length secret = 172%nat /\ stringForall base64Char secret = true)
  /\ (forall hookSecretKey pkey vcsName repoName workflowName uuid : string,
     let secret :=
       GenerateWorkflowWebHookSecret hookSecretKey pkey vcsName repoName workflowName uuid in
     String.length secret = 172%nat /\ stringForall base64Char secret = true).
Proof.
  split; intros; subst secret;
    unfold GenerateRepositoryWebHookSecret, GenerateWorkflowWebHookSecret; cbv zeta;
    (split; [| apply EncodeToString_alphabet]);
    rewrite EncodeToString_length, Key_sha512_length by lia; reflexivity.
Qed.

(** X13: the fields are joined without escaping the separator, so the
    secret does not tell where a field ends: the workflow secret of a
    repository and a workflow is the repository secret of the repository
    name made of both around a [-], and a [-] moves from the end of the
    project key to the front of the server name without changing the
    secret. *)
Theorem secrets_do_not_delimit_fields :
  (forall hookSecretKey pkey vcsName repoName workflowName uuid : string,
     GenerateWorkflowWebHookSecret hookSecretKey pkey vcsName repoName workflowName uuid =
       GenerateRepositoryWebHookSecret hookSecretKey pkey vcsName
         (repoName ++ "-" ++ workflowName) uuid)
  /\ (forall hookSecretKey pkey part vcsName repoName uuid : string,
     GenerateRepositoryWebHookSecret hookSecretKey (pkey ++ "-" ++ part) vcsName repoName uuid =
       GenerateRepositoryWebHookSecret hookSecretKey pkey (part ++ "-" ++ vcsName)
         repoName uuid).
Proof.
  split; intros;
    unfold GenerateRepositoryWebHookSecret, GenerateWorkflowWebHookSecret; cbv zeta;
    now rewrite !append_assoc.
Qed.

(** ** Escaped path segments *)

Lemma byte_in_range_In (c : Z) : 0 <= c < 256 -> In c (map Z.of_nat (seq 0 256)).
Proof.
  intros H. apply in_map_iff. exists (Z.to_nat c). split; [lia |].
  apply in_seq. lia.
Qed.

Lemma escapeByteChecks_all (c : Z) : 0 <= c < 256 -> escapeByteChecks c = true.
Proof.
  intros H.
  assert (Hall : forallb escapeByteChecks (map Z.of_nat (seq 0 256)) = true)
    by (vm_compute; reflexivity).
  rewrite forallb_forall in Hall. apply Hall, byte_in_range_In, H.
Qed.

Lemma bytes_of_string_range (s : string) :
  Forall (fun b => 0 <= b < 256) (bytes_of_string s).
Proof.
  unfold bytes_of_string. apply Forall_forall. intros b Hin.
  apply in_map_iff in Hin. destruct Hin as [c [<- _]]. apply byte_of_range.
Qed.

Lemma bytes_of_string_of_bytes (l : list Z) :
  Forall (fun b => 0 <= b < 256) l -> bytes_of_string (string_of_bytes l) = l.
Proof.
  intros H. unfold bytes_of_string, string_of_bytes.
  rewrite list_ascii_of_string_of_list_ascii, map_map.
  induction H as [| b l Hb _ IH]; simpl; [reflexivity |].
  now rewrite byte_of_char_of, IH.
Qed.

Lemma escape_bytes_range (l : list Z) :
  Forall (fun b => 0 <= b < 256) l ->
  Forall (fun b => 0 <= b < 256) (flat_map url.escape_byte l).
Proof.
  intros H. induction H as [| c l Hc _ IH]; simpl; [constructor |].
  apply Forall_app. split; [| exact IH].
  pose proof (escapeByteChecks_all c Hc) as Hchk.
  unfold escapeByteChecks in Hchk. apply andb_true_iff in Hchk.
  destruct Hchk as [Hall _]. rewrite forallb_forall in Hall.
  apply Forall_forall. intros o Ho. specialize (Hall o Ho).
  rewrite !andb_true_iff in Hall. destruct Hall as [[H1 H2] _].
  apply Z.leb_le in H1. apply Z.ltb_lt in H2. lia.
Qed.

Lemma unescape_escape (l : list Z) :
  Forall (fun b => 0 <= b < 256) l ->
  unescapeBytes (flat_map url.escape_byte l) = l.
Proof.
  intros H. induction H as [| c l Hc _ IH]; [reflexivity |].
  cbn [flat_map].
  pose proof (escapeByteChecks_all c Hc) as Hchk.
  unfold escapeByteChecks in Hchk. apply andb_true_iff in Hchk.
  destruct Hchk as [_ Hshape].
  destruct (url.escape_byte c) as [| o [| hi [| lo [| x t]]]]; try discriminate.
  - apply andb_true_iff in Hshape. destruct Hshape as [Ho Hn].
    apply Z.eqb_eq in Ho. apply negb_true_iff in Hn. subst o.
    cbn [app unescapeBytes]. rewrite Hn. now rewrite IH.
  - apply andb_true_iff in Hshape. destruct Hshape as [Ho Hv].
    apply Z.eqb_eq in Ho, Hv. subst o.
    cbn [app unescapeBytes]. rewrite Z.eqb_refl. now rewrite Hv, IH.
Qed.

Lemma PathEscape_bytes (s : string) :
  bytes_of_string (url.PathEscape s) = flat_map url.escape_byte (bytes_of_string s).
Proof.
  unfold url.PathEscape. apply bytes_of_string_of_bytes, escape_bytes_range,
    bytes_of_string_range.
Qed.

(** X14: [url.PathEscape] loses nothing: two strings with the same
    escaped form are equal, so two repository names never share a link. *)
Theorem PathEscape_injective (s1 s2 : string) :
  (url.PathEscape s1 =? url.PathEscape s2)%string = (s1 =? s2)%string.
Proof.
  destruct (String.eqb_spec s1 s2) as [-> | Hne]; [apply String.eqb_refl |].
  apply String.eqb_neq. intros E. apply Hne.
  apply (f_equal bytes_of_string) in E. rewrite !PathEscape_bytes in E.
  apply (f_equal unescapeBytes) in E.
  rewrite !unescape_escape in E by apply bytes_of_string_range.
  apply (f_equal string_of_bytes) in E.
  now rewrite !string_of_bytes_of_string in E.
Qed.

Lemma stringForall_string_of_bytes (p : ascii -> bool) (l : list Z) :
  stringForall p (string_of_bytes l) = forallb (fun b => p (char_of b)) l.
Proof.
  unfold string_of_bytes. induction l as [| b l IH]; simpl; [reflexivity |].
  now rewrite IH.
Qed.

Lemma stringForall_contains (p : ascii -> bool) (c : ascii) (s : string) :
  stringForall p s = true -> p c = false -> contains c s = false.
Proof.
  intros Hs Hc. induction s as [| x s IH]; simpl in *; [reflexivity |].
  apply andb_true_iff in Hs. destruct Hs as [Hx Hs].
  rewrite (IH Hs), orb_false_r. apply Ascii.eqb_neq. intros ->. congruence.
Qed.

(** X15: the output of [url.PathEscape] is made of letters, digits, the
    characters [-_.~$&+:=@] and [%] only; it holds no slash, so an escaped
    repository name is one segment of the path of a link. *)
Theorem PathEscape_is_one_segment (s : string) :
  stringForall pathSegmentChar (url.PathEscape s) = true
  /\ contains slash (url.PathEscape s) = false.
Proof.
  assert (H : stringForall pathSegmentChar (url.PathEscape s) = true).
  { unfold url.PathEscape. rewrite stringForall_string_of_bytes.
    apply forallb_forall. intros o Ho. apply in_flat_map in Ho.
    destruct Ho as [c [Hc Ho]].
    assert (Hr : 0 <= c < 256).
    { pose proof (bytes_of_string_range s) as Hall.
      rewrite Forall_forall in Hall. exact (Hall c Hc). }
    pose proof (escapeByteChecks_all c Hr) as Hchk.
    unfold escapeByteChecks in Hchk. apply andb_true_iff in Hchk.
    destruct Hchk as [Hall _]. rewrite forallb_forall in Hall.
    specialize (Hall o Ho). rewrite !andb_true_iff in Hall.
    destruct Hall as [[H1 H2] H3]. apply Z.leb_le in H1. apply Z.ltb_lt in H2.
    unfold pathSegmentChar. now rewrite byte_of_char_of by lia. }
  split; [exact H |].
  apply (stringForall_contains pathSegmentChar); [exact H | reflexivity].
Qed.

(** ** Decimal strings: further properties *)

(** X16: [strconv.Itoa] gives different strings for different numbers, so
    the text of the aggregate item tells the number of workflows. *)
Theorem Itoa_injective (a b : Z) :
  (strconv.Itoa a =? strconv.Itoa b)%string = (a =? b).
Proof.
  destruct (Z.eqb_spec a b) as [-> | Hne]; [apply String.eqb_refl |].
  apply String.eqb_neq. intros E. apply Hne.
  apply (f_equal decimalValue) in E. rewrite !Itoa_decimalValue in E.
  now injection E.
Qed.

(** ** The report: what the truncation drops *)

(** X17: from six analyses on, the items of the report show the first
    analysis only: two events that differ in their later analyses have the
    same items. *)
Theorem report_items_ignore_later_analyses (t1 t2 : Z -> bool) (success uiURL : string)
    (h1 h2 : HookRepositoryEvent.t) (a : HookRepositoryEventAnalysis.t)
    (l1 l2 : list HookRepositoryEventAnalysis.t) :
  HookRepositoryEvent.Analyses h1 = a :: l1 ->
  HookRepositoryEvent.Analyses h2 = a :: l2 ->
  (5 <= List.length l1)%nat ->
  (5 <= List.length l2)%nat ->
  HookRepositoryEvent.VCSServerName h1 = HookRepositoryEvent.VCSServerName h2 ->
  HookRepositoryEvent.RepositoryName h1 = HookRepositoryEvent.RepositoryName h2 ->
  HookRepositoryEvent.WorkflowHooks h1 = HookRepositoryEvent.WorkflowHooks h2 ->
  option_map VCSInsight.Datas (ToInsightReport t1 success h1 uiURL) =
    option_map VCSInsight.Datas (ToInsightReport t2 success h2 uiURL).
Proof.
  intros Ha1 Ha2 Hl1 Hl2 Hv Hr Hw. rewrite !ToInsightReport_spec.
  cbn [option_map VCSInsight.Datas].
  assert (E1 : analysisItems h1 uiURL = [analysisData h1 uiURL a]).
  { unfold analysisItems. rewrite Ha1.
    destruct (Nat.leb_spec (List.length (a :: l1)) 5) as [H | H]; [simpl in H; lia |].
    reflexivity. }
  assert (E2 : analysisItems h2 uiURL = [analysisData h2 uiURL a]).
  { unfold analysisItems. rewrite Ha2.
    destruct (Nat.leb_spec (List.length (a :: l2)) 5) as [H | H]; [simpl in H; lia |].
    reflexivity. }
  rewrite E1, E2.
  unfold workflowItems, analysisData, workflowData, aggregateData, settingsHref.
  now rewrite Hv, Hr, Hw.
Qed.

(** X18: from seven workflows on, the one item of the workflows shows
    their number and the project and ref of the first workflow only: two
    events with as many workflows, whose first workflows have the same
    project and ref, have the same items. *)
Theorem report_aggregate_shows_first_workflow (t1 t2 : Z -> bool) (success uiURL : string)
    (h1 h2 : HookRepositoryEvent.t) (w1 w2 : HookRepositoryEventWorkflow.t)
    (ws1 ws2 : list HookRepositoryEventWorkflow.t) :
  HookRepositoryEvent.WorkflowHooks h1 = w1 :: ws1 ->
  HookRepositoryEvent.WorkflowHooks h2 = w2 :: ws2 ->
  HookRepositoryEventWorkflow.ProjectKey w1 = HookRepositoryEventWorkflow.ProjectKey w2 ->
  HookRepositoryEventWorkflow.Ref w1 = HookRepositoryEventWorkflow.Ref w2 ->
  List.length ws1 = List.length ws2 ->
  (6 <= List.length ws1)%nat ->
  HookRepositoryEvent.VCSServerName h1 = HookRepositoryEvent.VCSServerName h2 ->
  HookRepositoryEvent.RepositoryName h1 = HookRepositoryEvent.RepositoryName h2 ->
  HookRepositoryEvent.Analyses h1 = HookRepositoryEvent.Analyses h2 ->
  option_map VCSInsight.Datas (ToInsightReport t1 success h1 uiURL) =
    option_map VCSInsight.Datas (ToInsightReport t2 success h2 uiURL).
Proof.
  intros Hw1 Hw2 Hp Href Hlen Hsix Hv Hr Ha. rewrite !ToInsightReport_spec.
  cbn [option_map VCSInsight.Datas].
  assert (Ea : analysisItems h1 uiURL = analysisItems h2 uiURL).
  { unfold analysisItems, analysisData, settingsHref. now rewrite Hv, Hr, Ha. }
  rewrite Ea. f_equal. unfold workflowItems. rewrite Hw1, Hw2.
  cbn [List.length]. rewrite <- Hlen.
  destruct (Nat.ltb_spec (S (List.length ws1) + List.length (analysisItems h2 uiURL)) 7);
    [lia |].
  cbn [firstn map]. unfold aggregateData. rewrite Hw1, Hw2. cbn [List.length].
  now rewrite Hp, Href, Hv, Hr, Hlen.
Qed.

(** ** Keys longer than a block *)

Lemma hmac_New_long_key (H : hash.Hash) (key : list Z) :
  hash.BlockSize H < Z.of_nat (List.length key) ->
  Z.of_nat (List.length (hash.digest H key)) <= hash.BlockSize H ->
  hmac.New H key = hmac.New H (hash.digest H key).
Proof.
  intros Hlong Hshort. unfold hmac.New.
  destruct (Z.ltb_spec (hash.BlockSize H) (Z.of_nat (List.length key))); [| lia].
  destruct (Z.ltb_spec (hash.BlockSize H) (Z.of_nat (List.length (hash.digest H key)))); [lia |].
  reflexivity.
Qed.

(** X19: a password longer than a block of SHA-512 (128 bytes) is hashed
    before use, as [hmac.New] does with its key: the key derived from it is
    the key derived from its digest. *)
Theorem Key_of_long_password (password salt : list Z) (iter keyLen : Z) :
  (128 < List.length password)%nat ->
  pbkdf2.Key password salt iter keyLen sha512.New =
    pbkdf2.Key (sha512.Sum512 password) salt iter keyLen sha512.New.
Proof.
  intros Hlong. unfold pbkdf2.Key.
  rewrite (hmac_New_long_key sha512.New password).
  - reflexivity.
  - cbn [hash.BlockSize sha512.New]. lia.
  - cbn [hash.BlockSize hash.digest sha512.New]. rewrite Sum512_length. lia.
Qed.

(** ** Quoted names hold no control character *)

Lemma range_check (n : nat) (p : Z -> bool) :
  forallb p (map Z.of_nat (seq 0 n)) = true ->
  forall x, 0 <= x < Z.of_nat n -> p x = true.
Proof.
  intros Hall x Hx. rewrite forallb_forall in Hall. apply Hall.
  apply in_map_iff. exists (Z.to_nat x). split; [lia |].
  apply in_seq. lia.
Qed.

Lemma land_15_range (x : Z) : 0 <= Z.land x 15 < 16.
Proof.
  change 15 with (Z.ones 4). rewrite Z.land_ones by lia.
  apply Z.mod_pos_bound. lia.
Qed.

Lemma shiftr_range (r k bound : Z) :
  0 <= k -> 0 <= r < bound * 2 ^ k -> 0 <= Z.shiftr r k < bound.
Proof.
  intros Hk Hr. rewrite Z.shiftr_div_pow2 by exact Hk.
  assert (0 < 2 ^ k) by (apply Z.pow_pos_nonneg; lia).
  split; [apply Z.div_pos; lia |].
  apply Z.div_lt_upper_bound; lia.
Qed.

Lemma hex_at_visible (r k : Z) : visibleByte (hex_at r k) = true.
Proof.
  unfold hex_at.
  apply (range_check 16 (fun d => visibleByte (byte_of (strconv.lowerhex d))));
    [vm_compute; reflexivity | apply land_15_range].
Qed.

Lemma continuation_visible (x : Z) : visibleByte (Z.lor 128 (Z.land x 63)) = true.
Proof.
  apply (range_check 64 (fun d => visibleByte (Z.lor 128 d)));
    [vm_compute; reflexivity | apply land_63_range].
Qed.

Lemma lead2_visible (x : Z) : 0 <= x < 32 -> visibleByte (Z.lor 192 x) = true.
Proof.
  apply (range_check 32 (fun d => visibleByte (Z.lor 192 d))). vm_compute. reflexivity.
Qed.

Lemma lead3_visible (x : Z) : 0 <= x < 16 -> visibleByte (Z.lor 224 x) = true.
Proof.
  apply (range_check 16 (fun d => visibleByte (Z.lor 224 d))). vm_compute. reflexivity.
Qed.

Lemma lead4_visible (x : Z) : 0 <= x < 8 -> visibleByte (Z.lor 240 x) = true.
Proof.
  apply (range_check 8 (fun d => visibleByte (Z.lor 240 d))). vm_compute. reflexivity.
Qed.

Lemma EncodeRune_visible (isPrintWide : Z -> bool) (r : Z) :
  strconv_IsPrint isPrintWide r = true ->
  forallb visibleByte (utf8.EncodeRune r) = true.
Proof.
  intros Hp. unfold utf8.EncodeRune, utf8.MaxRune.
  destruct ((0 <=? r) && (r <=? 127)) eqn:E1.
  - apply andb_true_iff in E1. destruct E1 as [H0 H127].
    apply Z.leb_le in H0, H127.
    unfold strconv_IsPrint in Hp.
    destruct (Z.leb_spec r 255); [| lia].
    cbn [forallb]. unfold visibleByte. rewrite andb_true_r.
    destruct (Z.leb_spec 32 r); destruct (Z.leb_spec r 126); cbn [andb] in *;
      try (destruct (Z.leb_spec 161 r); cbn [andb] in Hp; [lia | discriminate]).
    destruct (Z.ltb_spec r 256); [| lia].
    destruct (Z.eqb_spec r 127); [lia | reflexivity].
  - destruct ((0 <=? r) && (r <=? 2047)) eqn:E2.
    + apply andb_true_iff in E2. destruct E2 as [H0 H2047].
      apply Z.leb_le in H0, H2047.
      cbn [forallb]. rewrite continuation_visible, lead2_visible; [reflexivity |].
      apply shiftr_range; lia.
    + destruct ((r <? 0) || (1114111 <? r) || ((55296 <=? r) && (r <=? 57343))) eqn:E3;
        [vm_compute; reflexivity |].
      rewrite !orb_false_iff in E3. destruct E3 as [[H0 Hmax] _].
      apply Z.ltb_ge in H0, Hmax.
      destruct (Z.leb_spec r 65535).
      * unfold utf8.encode3. cbn [forallb].
        rewrite !continuation_visible, lead3_visible; [reflexivity |].
        apply shiftr_range; lia.
      * cbn [forallb].
        rewrite !continuation_visible, lead4_visible; [reflexivity |].
        apply shiftr_range; lia.
Qed.

Lemma appendEscapedRune_visible (isPrintWide : Z -> bool) (buf : list Z) (r : Z) :
  forallb visibleByte buf = true ->
  forallb visibleByte (strconv_appendEscapedRune isPrintWide buf r 34) = true.
Proof.
  intros Hbuf. unfold strconv_appendEscapedRune.
  destruct ((r =? 34) || (r =? 92)) eqn:Eq.
  - rewrite forallb_app, Hbuf. apply orb_true_iff in Eq.
    destruct Eq as [E | E]; apply Z.eqb_eq in E; subst r; reflexivity.
  - destruct (strconv_IsPrint isPrintWide r) eqn:Ep.
    + now rewrite forallb_app, Hbuf, (EncodeRune_visible isPrintWide r Ep).
    + repeat match goal with
        | |- context [if ?c then _ else _] => destruct c
        end;
        rewrite ?forallb_app, ?Hbuf; cbn [forallb map app];
        rewrite ?hex_at_visible; reflexivity.
Qed.

Lemma quoteLoop_visible (isPrintWide : Z -> bool) (fuel : nat) :
  forall (s buf : list Z),
    forallb visibleByte buf = true ->
    forallb visibleByte (strconv_quoteLoop isPrintWide fuel s 34 buf) = true.
Proof.
  induction fuel as [| fuel IH]; intros s buf Hbuf; [exact Hbuf |].
  cbn [strconv_quoteLoop]. destruct s as [| s0 t]; [exact Hbuf |].
  destruct (if utf8.RuneSelf <=? s0 then utf8.DecodeRuneInString (s0 :: t) else (s0, 1))
    as [r width].
  apply IH.
  destruct ((width =? 1) && (r =? utf8.RuneError)).
  - rewrite forallb_app, Hbuf. cbn [forallb]. now rewrite !hex_at_visible.
  - apply appendEscapedRune_visible, Hbuf.
Qed.

(** X20: what [%q] prints for a name holds no control character: no byte
    below the space and no DEL, so no line feed; the header of the detail
    cannot be broken by the name of the event. *)
Theorem Quote_has_no_control_character (isPrintWide : Z -> bool) (s : string) :
  stringForall visibleChar (strconv_Quote isPrintWide s) = true
  /\ contains (char_of 10) (strconv_Quote isPrintWide s) = false.
Proof.
  assert (H : stringForall visibleChar (strconv_Quote isPrintWide s) = true).
  { unfold strconv_Quote. cbv zeta. rewrite stringForall_string_of_bytes.
    assert (Hl : forallb visibleByte
                   (strconv_quoteLoop isPrintWide (List.length (bytes_of_string s))
                      (bytes_of_string s) 34 [34] ++ [34]) = true).
    { rewrite forallb_app, quoteLoop_visible by reflexivity. reflexivity. }
    rewrite forallb_forall in Hl. apply forallb_forall. intros b Hb.
    specialize (Hl b Hb). unfold visibleChar.
    assert (Hr : 0 <= b < 256).
    { unfold visibleByte in Hl. rewrite !andb_true_iff in Hl.
      destruct Hl as [[H1 H2] _]. apply Z.leb_le in H1. apply Z.ltb_lt in H2. lia. }
    now rewrite byte_of_char_of by exact Hr. }
  split; [exact H |].
  apply (stringForall_contains visibleChar); [exact H | reflexivity].
Qed.

(** ** Instances of the properties above *)

Lemma report_detail_of_done_event_witness :
  HookRepositoryEvent.Status (eventOf "push" "Done" fiveAnalyses []) = "Done"
  /\ exists report,
       ToInsightReport noWideRune statusSuccess (eventOf "push" "Done" fiveAnalyses [])
         "https://ui" = Some report
       /\ (VCSInsight.Detail report
             = detailHeader noWideRune (eventOf "push" "Done" fiveAnalyses []) <->
           Forall (fun a => HookRepositoryEventAnalysis.Error a = EmptyString)
             (HookRepositoryEvent.Analyses (eventOf "push" "Done" fiveAnalyses []))).
Proof.
  split; [reflexivity |].
  apply (report_detail_of_done_event noWideRune statusSuccess
           (eventOf "push" "Done" fiveAnalyses []) "https://ui").
  reflexivity.
Defined.

Lemma report_items_frame_witness :
  option_map VCSInsight.Datas
    (ToInsightReport noWideRune statusSuccess
       (eventOf "push" "Done" fiveAnalyses [workflowOf "build" 1]) "https://ui") =
  option_map VCSInsight.Datas
    (ToInsightReport (fun _ => true) statusSuccess
       (eventOf "manual" "Error" fiveAnalyses [workflowOf "build" 1]) "https://ui").
Proof.
  apply (report_items_frame noWideRune (fun _ => true) statusSuccess "https://ui"
           (eventOf "push" "Done" fiveAnalyses [workflowOf "build" 1])
           (eventOf "manual" "Error" fiveAnalyses [workflowOf "build" 1]));
    reflexivity.
Defined.

Lemma report_detail_frame_witness :
  option_map VCSInsight.Detail
    (ToInsightReport noWideRune statusSuccess
       (eventOf "push" "Done" fiveAnalyses [workflowOf "build" 1]) "https://ui") =
  option_map VCSInsight.Detail
    (ToInsightReport noWideRune "Done"
       (eventOf "push" "Done" fiveAnalyses []) "https://other").
Proof.
  apply (report_detail_frame noWideRune statusSuccess "Done" "https://ui" "https://other"
           (eventOf "push" "Done" fiveAnalyses [workflowOf "build" 1])
           (eventOf "push" "Done" fiveAnalyses []));
    reflexivity.
Defined.

Lemma report_items_ignore_later_analyses_witness :
  (5 <= List.length fiveAnalyses)%nat
  /\ option_map VCSInsight.Datas
       (ToInsightReport noWideRune statusSuccess sixAnalysesEvent "https://ui") =
     option_map VCSInsight.Datas
       (ToInsightReport noWideRune statusSuccess elevenAnalysesEvent "https://ui").
Proof.
  split; [simpl; lia |].
  apply (report_items_ignore_later_analyses noWideRune noWideRune statusSuccess "https://ui"
           sixAnalysesEvent elevenAnalysesEvent (analysisOf "P0" EmptyString)
           fiveAnalyses (fiveAnalyses ++ fiveAnalyses));
    try reflexivity; simpl; lia.
Defined.

Lemma report_aggregate_shows_first_workflow_witness :
  option_map VCSInsight.Datas
    (ToInsightReport noWideRune statusSuccess sevenBuildsEvent "https://ui") =
  option_map VCSInsight.Datas
    (ToInsightReport noWideRune statusSuccess sevenTestsEvent "https://ui").
Proof.
  apply (report_aggregate_shows_first_workflow noWideRune noWideRune statusSuccess
           "https://ui" sevenBuildsEvent sevenTestsEvent
           (workflowOf "build" 1) (workflowOf "deploy" 9)
           (map (workflowOf "build") [2; 3; 4; 5; 6; 7])
           (map (workflowOf "test") [2; 3; 4; 5; 6; 7]));
    try reflexivity; simpl; lia.
Defined.

Lemma Key_of_long_password_witness :
  (128 < List.length (repeat 97 129))%nat
  /\ pbkdf2.Key (repeat 97 129) (bytes_of_string "salt") 4096 128 sha512.New =
     pbkdf2.Key (sha512.Sum512 (repeat 97 129)) (bytes_of_string "salt") 4096 128 sha512.New.
Proof.
  split; [rewrite repeat_length; lia |].
  apply (Key_of_long_password (repeat 97 129) (bytes_of_string "salt") 4096 128).
  rewrite repeat_length. lia.
Defined.
